(** * watch-scroll: the visibility evaluator of [src/watch-scroll.js]

    A shallow embedding of the [watchScroll] class: its status record, the
    configuration methods [constructor], [on] and [always], the event wiring
    [setupEvents] / [cancel], and the evaluation [checkPosition].

    Modelling choices.
    - Numbers are IEEE 754 binary64 values, as in JavaScript: Rocq's
      primitive [float], with its addition, division and comparisons.  The
      midpoint [(left + right) / 2] is rounded as the code rounds it, and
      NaN and the infinities behave as they do in the code.
    - JavaScript values that the class stores or inspects are the inductive
      [value]; only what the code observes of them is modelled ([typeof],
      truthiness, [===]).
    - The host (window, DOM) is a record of the answers it gives during one
      call ([Env]) plus the listeners registered on [window] ([World]).
    - A callback invocation is recorded, not executed: [checkPosition]
      returns the list of calls it makes.  Callbacks that mutate the watcher
      from inside are outside the model.
    - A thrown [TypeError] is the [Throw] case of [result]. *)

From Stdlib Require Import Floats ZArith String List Bool Lia.
Import ListNotations.
Open Scope string_scope.

(** ** JavaScript values *)

#[warnings="-register-all"]
Inductive value : Type :=
| VUndefined
| VNull
| VBool (b : bool)
| VNum (n : float)
| VStr (s : string)
| VFun (f : nat)                           (* a function, named by an identifier *)
| VObj (fields : list (string * value)).   (* own enumerable properties, in for-in order *)

Inductive jstype := TUndefined | TObject | TBoolean | TNumber | TString | TFunction.

Definition typeof (v : value) : jstype :=
  match v with
  | VUndefined => TUndefined
  | VNull => TObject
  | VBool _ => TBoolean
  | VNum _ => TNumber
  | VStr _ => TString
  | VFun _ => TFunction
  | VObj _ => TObject
  end.

Definition jstype_eqb (a b : jstype) : bool :=
  match a, b with
  | TUndefined, TUndefined | TObject, TObject | TBoolean, TBoolean
  | TNumber, TNumber | TString, TString | TFunction, TFunction => true
  | _, _ => false
  end.

(** ToBoolean. *)
Definition truthy (v : value) : bool :=
  match v with
  | VUndefined | VNull => false
  | VBool b => b
  | VNum n => negb (PrimFloat.eqb n 0 || PrimFloat.is_nan n)   (* 0, -0 and NaN are falsy *)
  | VStr s => negb (String.eqb s "")
  | VFun _ | VObj _ => true
  end.

(** [a === b].  Two objects are equal only when they are the same reference;
    the class never compares two objects, so that case answers [false]. *)
Definition strict_eq (a b : value) : bool :=
  match a, b with
  | VUndefined, VUndefined => true
  | VNull, VNull => true
  | VBool x, VBool y => Bool.eqb x y
  | VNum x, VNum y => PrimFloat.eqb x y
  | VStr x, VStr y => String.eqb x y
  | VFun x, VFun y => Nat.eqb x y
  | _, _ => false
  end.

Definition is_function (v : value) : bool := jstype_eqb TFunction (typeof v).

(** ToNumber of a boolean, as [<] and [>] apply it. *)
Definition num_of_bool (b : bool) : float := if b then 1 else 0.

(** [x <= y] and [x < y] on numbers, as propositions: the comparison of the
    two doubles answers true.  Both are false when either side is NaN. *)
Definition dle (x y : float) : Prop := PrimFloat.leb x y = true.
Definition dlt (x y : float) : Prop := PrimFloat.ltb x y = true.

Declare Scope double_scope.
Delimit Scope double_scope with double.
Notation "x <= y" := (dle x%float y%float) : double_scope.
Notation "x < y" := (dlt x%float y%float) : double_scope.

(** ** Errors *)

Inductive error := TypeError.

Inductive result (A : Type) : Type :=
| Ok (a : A)
| Throw (e : error).
Arguments Ok {A} a.
Arguments Throw {A} e.

(** ** Host answers *)

Module DOMRect.
Record t := mk { top : float; right : float; bottom : float; left : float }.
End DOMRect.

Inductive events_api := AddEventListener | AttachEvent | NoEvents.

(** What the host answers during one call: [getBoundingClientRect()] of the
    bound element, [window.innerWidth], [window.innerHeight], and which
    registration functions [window] has. *)
Record Env := {
  clientRect : DOMRect.t;
  innerWidth : float;
  innerHeight : float;
  eventsApi : events_api
}.

(** ** The status record (lines 47-54) *)

Inductive visibility_t := full | partial | overflow | hidden.

Definition visibility_name (v : visibility_t) : string :=
  match v with
  | full => "full" | partial => "partial" | overflow => "overflow" | hidden => "hidden"
  end.

Module Status.
(** [None] is JavaScript's [null]. *)
Record t := mk {
  top : option bool;
  right : option bool;
  bottom : option bool;
  left : option bool;
  centerIsVisible : option bool;
  visibility : option visibility_t
}.

Definition initial : t := mk None None None None None None.

Definition of_flag (f : option bool) : value :=
  match f with None => VNull | Some b => VBool b end.

(** [status[side]]: a name that is not an own property reads as
    [undefined] (an inherited name such as [toString] reads as a function;
    either way it is no boolean). *)
Definition get (s : t) (side : string) : value :=
  if String.eqb side "top" then of_flag (top s)
  else if String.eqb side "right" then of_flag (right s)
  else if String.eqb side "bottom" then of_flag (bottom s)
  else if String.eqb side "left" then of_flag (left s)
  else if String.eqb side "centerIsVisible" then of_flag (centerIsVisible s)
  else if String.eqb side "visibility" then
    match visibility s with None => VNull | Some v => VStr (visibility_name v) end
  else VUndefined.

(** The own keys, in creation order: what [for ( side in status )] visits. *)
Definition keys : list string :=
  ["top"; "right"; "bottom"; "left"; "centerIsVisible"; "visibility"].

(** [JSON.parse( JSON.stringify( status ) )]: a copy; null, booleans and
    strings survive the round trip unchanged. *)
Definition json_roundtrip (s : t) : t :=
  mk (top s) (right s) (bottom s) (left s) (centerIsVisible s) (visibility s).
End Status.

(** ** The watcher object *)

Record watchScroll := {
  element : option nat;             (* the DOM node, [None] when missing *)
  status : Status.t;
  conditionsMatch : value;
  conditions : value;
  callbackTrue : value;
  callbackFalse : value;
  onEveryScrollEvent : value;
  scrollHandler : option nat        (* the closure made by setupEvents *)
}.

Definition set_status (s : Status.t) (w : watchScroll) : watchScroll :=
  {| element := element w; status := s; conditionsMatch := conditionsMatch w;
     conditions := conditions w; callbackTrue := callbackTrue w;
     callbackFalse := callbackFalse w; onEveryScrollEvent := onEveryScrollEvent w;
     scrollHandler := scrollHandler w |}.

Definition set_conditionsMatch (m : value) (w : watchScroll) : watchScroll :=
  {| element := element w; status := status w; conditionsMatch := m;
     conditions := conditions w; callbackTrue := callbackTrue w;
     callbackFalse := callbackFalse w; onEveryScrollEvent := onEveryScrollEvent w;
     scrollHandler := scrollHandler w |}.

Definition set_scrollHandler (h : nat) (w : watchScroll) : watchScroll :=
  {| element := element w; status := status w; conditionsMatch := conditionsMatch w;
     conditions := conditions w; callbackTrue := callbackTrue w;
     callbackFalse := callbackFalse w; onEveryScrollEvent := onEveryScrollEvent w;
     scrollHandler := Some h |}.

(** Which field the invoked function was read from. *)
Inductive slot := CallbackTrue | CallbackFalse.

(** [f.call( this.element, event, this.status, this )]. *)
Record call := {
  via : slot;
  callee : value;
  thisArg : nat;
  argEvent : value;
  argStatus : Status.t
}.

(** ** checkPosition (lines 232-284) *)

(** Lines 242-256. *)
Definition compute_status (env : Env) : Status.t :=
  let elementPosition := clientRect env in
  let x := ((DOMRect.left elementPosition + DOMRect.right elementPosition) / 2)%float in
  let y := ((DOMRect.top elementPosition + DOMRect.bottom elementPosition) / 2)%float in
  let top := PrimFloat.leb 0 (DOMRect.top elementPosition)
             && PrimFloat.leb (DOMRect.top elementPosition) (innerHeight env) in
  let bottom := PrimFloat.leb 0 (DOMRect.bottom elementPosition)
                && PrimFloat.leb (DOMRect.bottom elementPosition) (innerHeight env) in
  let right := PrimFloat.leb 0 (DOMRect.right elementPosition)
               && PrimFloat.leb (DOMRect.right elementPosition) (innerWidth env) in
  let left := PrimFloat.leb 0 (DOMRect.left elementPosition)
              && PrimFloat.leb (DOMRect.left elementPosition) (innerWidth env) in
  let centerIsVisible :=
    PrimFloat.leb 0 x && PrimFloat.leb 0 y
    && PrimFloat.leb x (innerWidth env) && PrimFloat.leb y (innerHeight env) in
  let visibility :=
    if top && bottom && left && right then full
    else if PrimFloat.ltb (num_of_bool top) 0
            && PrimFloat.ltb (innerHeight env) (num_of_bool bottom)
            && PrimFloat.ltb (num_of_bool left) 0
            && PrimFloat.ltb (innerWidth env) (num_of_bool right) then overflow
    else if (top || bottom) && (left || right) then partial
    else hidden in
  Status.mk (Some top) (Some right) (Some bottom) (Some left)
            (Some centerIsVisible) (Some visibility).

(** Lines 259-264: does any own key of the status differ from the snapshot? *)
Definition status_differs (previousStatus now : Status.t) : bool :=
  existsb (fun side => negb (strict_eq (Status.get previousStatus side) (Status.get now side)))
          Status.keys.

(** The test of line 267 for one property [side] of the conditions, whose
    value is [c]: true when the property is NOT satisfied. *)
Definition side_fails (st : Status.t) (side : string) (c : value) : bool :=
  (strict_eq (VStr "hidden") c && negb (strict_eq (VBool false) (Status.get st side)))
  || (negb (strict_eq (VStr "hidden") c)
      && negb (strict_eq (Status.get st side) (VBool (if truthy c then true else false)))).

(** Lines 266-272: the loop over the conditions object; returns
    [(conditionsMatch, statusChange)]. *)
Fixpoint conditions_loop (st : Status.t) (fields : list (string * value)) : bool * bool :=
  match fields with
  | [] => (true, false)
  | (side, c) :: rest =>
      if side_fails st side c then (false, true) else conditions_loop st rest
  end.

(** Lines 258-273. *)
Definition match_conditions (w : watchScroll) (previousStatus : Status.t) : bool * bool :=
  if strict_eq (VStr "all") (conditionsMatch w) || strict_eq (VStr "all") (conditions w)
  then (true, status_differs previousStatus (status w))
  else if jstype_eqb TObject (typeof (conditions w)) then
    match conditions w with
    | VObj fields => conditions_loop (status w) fields
    | _ => (true, false)                   (* for-in over null visits nothing *)
    end
  else (true, false).

(** Line 274. *)
Definition gate (w : watchScroll) (conditionsMatch' statusChange : bool) : bool :=
  ((jstype_eqb TBoolean (typeof (conditionsMatch w)) || strict_eq VNull (conditionsMatch w))
   && negb (strict_eq (VBool conditionsMatch') (conditionsMatch w)))
  || truthy (onEveryScrollEvent w)
  || (strict_eq (VStr "all") (conditions w) && statusChange).

(** Lines 278-282: the call made once the gate has passed. *)
Definition dispatch (el : nat) (event : value) (w : watchScroll) : list call :=
  if truthy (conditionsMatch w) && is_function (callbackTrue w) then
    [ {| via := CallbackTrue; callee := callbackTrue w; thisArg := el;
         argEvent := event; argStatus := status w |} ]
  else if negb (truthy (conditionsMatch w)) && is_function (callbackFalse w) then
    [ {| via := CallbackFalse; callee := callbackFalse w; thisArg := el;
         argEvent := event; argStatus := status w |} ]
  else [].

(** Lines 275-277. *)
Definition record_match (conditionsMatch' : bool) (w : watchScroll) : watchScroll :=
  if negb (strict_eq (VStr "all") (conditionsMatch w))
  then set_conditionsMatch (VBool conditionsMatch') w else w.

Definition checkPosition (env : Env) (event : value) (w : watchScroll)
  : result (watchScroll * list call) :=
  match element w with
  | None => Throw TypeError                (* undefined.getBoundingClientRect *)
  | Some el =>
      let previousStatus := Status.json_roundtrip (status w) in
      let w1 := set_status (compute_status env) w in
      let '(conditionsMatch', statusChange) := match_conditions w1 previousStatus in
      if gate w1 conditionsMatch' statusChange then
        let w2 := record_match conditionsMatch' w1 in
        Ok (w2, dispatch el event w2)
      else Ok (w1, [])
  end.

(** ** Event wiring and configuration *)

(** The watcher together with the listeners registered on [window]: pairs of
    an event name and a handler closure.  [closures] numbers the arrow
    functions created so far; each [setupEvents] creates a new one. *)
Record World := {
  self : watchScroll;
  listeners : list (string * nat);
  closures : nat
}.

Definition with_self (w : watchScroll) (x : World) : World :=
  {| self := w; listeners := listeners x; closures := closures x |}.

(** Lines 186-202. *)
Definition setupEvents (env : Env) (x : World) : World :=
  let h := closures x in
  let w := set_scrollHandler h (self x) in
  match eventsApi env with
  | AddEventListener =>
      {| self := w; listeners := listeners x ++ [("scroll", h); ("resize", h)];
         closures := S h |}
  | AttachEvent =>
      {| self := w; listeners := listeners x ++ [("onscroll", h); ("onresize", h)];
         closures := S h |}
  | NoEvents => {| self := w; listeners := listeners x; closures := S h |}
  end.

Definition listener_eqb (a b : string * nat) : bool :=
  String.eqb (fst a) (fst b) && Nat.eqb (snd a) (snd b).

Definition remove_listener (l : string * nat) (ls : list (string * nat)) :=
  filter (fun l' => negb (listener_eqb l l')) ls.

(** Lines 213-221.  In the [attachEvent] branch the code calls
    [window.dettachEvent], which no window has. *)
Definition cancel (env : Env) (x : World) : result World :=
  match eventsApi env with
  | AddEventListener =>
      match scrollHandler (self x) with
      | Some h =>
          Ok {| self := self x;
                listeners := remove_listener ("resize", h)
                               (remove_listener ("scroll", h) (listeners x));
                closures := closures x |}
      | None => Ok x
      end
  | AttachEvent => Throw TypeError
  | NoEvents => Ok x
  end.

(** The value of a call: the watcher ([this]), or undefined after the early
    [return;] of a method. *)
Inductive retval := RetThis | RetUndefined.

(** The outcome of a method: the value returned, the world afterwards, and
    the callbacks invoked by the evaluation it ran ([None] when it ran no
    evaluation). *)
Record Outcome := {
  returned : retval;
  world : World;
  evaluation : option (list call)
}.

(** The tail shared by the constructor, [on] and [always]
    (lines 96-105, 131-140, 161-170). *)
Definition attach_and_check (env : Env) (x : World) : Outcome :=
  match element (self x) with
  | None => {| returned := RetUndefined; world := x; evaluation := None |}
  | Some _ =>
      if truthy (conditions (self x))
         && (truthy (callbackTrue (self x)) || truthy (callbackFalse (self x)))
      then
        let x1 := setupEvents env x in
        match checkPosition env VUndefined (self x1) with
        | Ok (w, calls) =>
            {| returned := RetThis; world := with_self w x1; evaluation := Some calls |}
        | Throw _ =>                       (* unreachable: the element is bound *)
            {| returned := RetUndefined; world := x1; evaluation := None |}
        end
      else {| returned := RetThis; world := x; evaluation := None |}
  end.

Definition conditionsMatch_for (conditions : value) : value :=
  if jstype_eqb TString (typeof conditions) then VStr "all" else VNull.

(** Lines 31-94: the fields as the constructor first sets them. *)
Definition new_fields (element : option nat)
    (conditions callbackTrue callbackFalse onEveryScrollEvent : value) : watchScroll :=
  {| element := element;
     status := Status.initial;
     conditionsMatch := conditionsMatch_for conditions;
     conditions := conditions;
     callbackTrue := callbackTrue;
     callbackFalse := callbackFalse;
     onEveryScrollEvent := onEveryScrollEvent;
     scrollHandler := None |}.

(** Lines 31-106, as run by [new watchScroll( ... )]; [x0] carries the
    listeners already on [window].  The body ends in [return;] when the
    element is missing and in [return this;] otherwise; in a class
    constructor both make the [new] expression evaluate to the object under
    construction, so [returned] is the watcher in every case. *)
Definition constructor (env : Env) (x0 : World) (element : option nat)
    (conditions callbackTrue callbackFalse onEveryScrollEvent : value) : Outcome :=
  let r := attach_and_check env
             (with_self (new_fields element conditions callbackTrue callbackFalse
                                    onEveryScrollEvent) x0) in
  {| returned := RetThis; world := world r; evaluation := evaluation r |}.

(** Lines 124-141. *)
Definition on (env : Env)
    (conditions' callbackTrue' callbackFalse' onEveryScrollEvent' : value)
    (x : World) : Outcome :=
  let w := self x in
  attach_and_check env
    (with_self {| element := element w; status := status w;
                  conditionsMatch := conditionsMatch_for conditions';
                  conditions := conditions';
                  callbackTrue := callbackTrue';
                  callbackFalse := callbackFalse';
                  onEveryScrollEvent := onEveryScrollEvent';
                  scrollHandler := scrollHandler w |} x).

(** Lines 156-171. *)
Definition always (env : Env) (callbackTrue' : value) (x : World) : Outcome :=
  let w := self x in
  attach_and_check env
    (with_self {| element := element w; status := status w;
                  conditionsMatch := VStr "all";
                  conditions := VStr "all";
                  callbackTrue := callbackTrue';
                  callbackFalse := callbackFalse w;
                  onEveryScrollEvent := onEveryScrollEvent w;
                  scrollHandler := scrollHandler w |} x).

(** ** Sequences of operations on one watcher *)

Inductive op :=
| CheckPosition (env : Env) (event : value)
| On (env : Env) (conditions callbackTrue callbackFalse onEveryScrollEvent : value)
| Always (env : Env) (callbackTrue : value)
| SetupEvents (env : Env)
| Cancel (env : Env).

(** One operation.  A method that throws has changed nothing before it
    throws, so the world is then the one before the call. *)
Definition step (o : op) (x : World) : World * option (list call) :=
  match o with
  | CheckPosition env event =>
      match checkPosition env event (self x) with
      | Ok (w, calls) => (with_self w x, Some calls)
      | Throw _ => (x, None)
      end
  | On env c t f e => let r := on env c t f e x in (world r, evaluation r)
  | Always env t => let r := always env t x in (world r, evaluation r)
  | SetupEvents env => (setupEvents env x, None)
  | Cancel env =>
      match cancel env x with
      | Ok x' => (x', None)
      | Throw _ => (x, None)
      end
  end.

(** Runs the operations in order; the log has one entry per operation. *)
Fixpoint run (ops : list op) (x : World) : World * list (option (list call)) :=
  match ops with
  | [] => (x, [])
  | o :: rest =>
      let '(x1, e) := step o x in
      let '(x2, log) := run rest x1 in
      (x2, e :: log)
  end.

(** How many evaluations a log records as completed. *)
Definition evaluations (log : list (option (list call))) : nat :=
  length (filter (fun e => match e with Some _ => true | None => false end) log).

(** ** Vocabulary of the statements and concrete inputs *)

(** The flag [f] is set, and it is [true] exactly when [P] holds. *)
Definition flag_is (f : option bool) (P : Prop) : Prop :=
  exists b, f = Some b /\ (b = true <-> P).

(** An element wholly inside an 800x600 viewport. *)
Definition env_full : Env :=
  {| clientRect := DOMRect.mk 10 50 50 10;
     innerWidth := 800; innerHeight := 600; eventsApi := AddEventListener |}.

(** [new watchScroll( element, 'all', f1 )], before its evaluation. *)
Definition watcher_all : watchScroll :=
  new_fields (Some 0%nat) (VStr "all") (VFun 1) VUndefined VUndefined.

(** An element that encloses the 800x600 viewport on every side. *)
Definition env_enclosing : Env :=
  {| clientRect := DOMRect.mk (-10) 900 700 (-10);
     innerWidth := 800; innerHeight := 600; eventsApi := AddEventListener |}.

(** The box {top:-1000, bottom:-900, left:10, right:50} in an 800x600 viewport. *)
Definition env_above : Env :=
  {| clientRect := DOMRect.mk (-1000) 50 (-900) 10;
     innerWidth := 800; innerHeight := 600; eventsApi := AddEventListener |}.

Definition watcher_visibility_hidden : watchScroll :=
  new_fields (Some 0%nat) (VObj [("visibility", VStr "hidden")])
             (VFun 1) (VFun 2) VUndefined.

Definition status_above : Status.t :=
  Status.mk (Some false) (Some true) (Some false) (Some true) (Some false) (Some hidden).

(** The conditions object without its property [side]. *)
Definition remove_field (side : string) (fields : list (string * value)) :=
  filter (fun p => negb (String.eqb side (fst p))) fields.

(** A fresh watcher on element 0 with conditions [c] and two callbacks. *)
Definition watcher_with (c : value) : watchScroll :=
  new_fields (Some 0%nat) c (VFun 1) (VFun 2) VUndefined.

(** A window with no listener yet. *)
Definition blank_world (w : watchScroll) : World :=
  {| self := w; listeners := []; closures := 0 |}.

(** onEveryScrollEvent true, callbackTrue missing. *)
Definition watcher_every_event : watchScroll :=
  new_fields (Some 0%nat) (VObj [("top", VBool true)]) VUndefined (VFun 2) (VBool true).

(** The first disjunct of the gate (line 274), for a computed match [m]. *)
Definition transition_test (recorded : value) (m : bool) : bool :=
  (jstype_eqb TBoolean (typeof recorded) || strict_eq VNull recorded)
  && negb (strict_eq (VBool m) recorded).

(** All six fields hold a value. *)
Definition definite (s : Status.t) : Prop :=
  exists t r b l c v,
    s = Status.mk (Some t) (Some r) (Some b) (Some l) (Some c) (Some v).

Definition center_condition : value := VObj [("centerIsVisible", VBool true)].

(** The centerIsVisible flag an evaluation under [env] stores. *)
Definition centerIsVisible_now (env : Env) : bool :=
  match Status.centerIsVisible (compute_status env) with
  | Some b => b
  | None => false
  end.

(** The callbacks of one evaluation as the claim words them: callbackTrue
    when the recorded match goes from not-true to true, callbackFalse on the
    reverse transition (from true to not-true), nothing otherwise. *)
Definition claimed_callbacks (recorded : value) (m : bool) : list slot :=
  if strict_eq (VBool true) recorded
  then (if m then [] else [CallbackFalse])
  else (if m then [CallbackTrue] else []).

(** The callbacks of one evaluation as the code makes them: one call
    whenever the computed match is not the recorded value, through the
    callback the computed match selects. *)
Definition edge_callbacks (recorded : value) (m : bool) : list slot :=
  if strict_eq (VBool m) recorded then []
  else [if m then CallbackTrue else CallbackFalse].

(** The calls of a sequence of evaluations, the recorded match being carried
    from one evaluation to the next. *)
Fixpoint expected_calls (recorded : value) (envs : list (Env * value)) : list (list slot) :=
  match envs with
  | [] => []
  | (env, _) :: rest =>
      edge_callbacks recorded (centerIsVisible_now env)
      :: expected_calls (VBool (centerIsVisible_now env)) rest
  end.

(** Through which fields an operation's evaluation called. *)
Definition invoked (e : option (list call)) : list slot :=
  match e with
  | Some calls => map via calls
  | None => []
  end.

(** A watcher configured with {centerIsVisible: true}, both callbacks
    functions, onEveryScrollEvent falsy, the recorded match unset or boolean. *)
Definition center_watcher (w : watchScroll) : Prop :=
  (exists el, element w = Some el)
  /\ conditions w = center_condition
  /\ is_function (callbackTrue w) = true
  /\ is_function (callbackFalse w) = true
  /\ truthy (onEveryScrollEvent w) = false
  /\ (conditionsMatch w = VNull \/ exists b, conditionsMatch w = VBool b).

Definition env_center_inside : Env := env_full.

(** ** Vocabulary of the further properties *)

(** The coordinate [x] lies within [0, hi]. *)
Definition inside (x hi : float) : Prop := (0 <= x /\ x <= hi)%double.

(** The flag value that a property value of a conditions object asks for
    (line 267): "hidden" asks for [false], anything else for its
    truthiness. *)
Definition wanted (c : value) : bool :=
  if strict_eq (VStr "hidden") c then false else truthy c.

(** The status holds, under the property's name, the boolean the property
    asks for. *)
Definition satisfied (st : Status.t) (p : string * value) : Prop :=
  Status.get st (fst p) = VBool (wanted (snd p)).

(** Evaluations only, e.g. as the scroll handler makes them. *)
Definition checks (envs : list (Env * value)) : list op :=
  map (fun p => CheckPosition (fst p) (snd p)) envs.

(** The recorded match is "all" exactly when the conditions are a string;
    otherwise it is unset or a boolean. *)
Definition match_consistent (w : watchScroll) : Prop :=
  (typeof (conditions w) = TString /\ conditionsMatch w = VStr "all")
  \/ (typeof (conditions w) <> TString
      /\ (conditionsMatch w = VNull \/ exists b, conditionsMatch w = VBool b)).

(** Every handler registered on the window was numbered before [closures]. *)
Definition handlers_fresh (x : World) : Prop :=
  Forall (fun l => (snd l < closures x)%nat) (listeners x).

(** An element taller than the 800x600 viewport that crosses it. *)
Definition env_tall : Env :=
  {| clientRect := DOMRect.mk (-100) 300 700 100;
     innerWidth := 800; innerHeight := 600; eventsApi := AddEventListener |}.

(** {top: true}, both callbacks, onEveryScrollEvent true. *)
Definition watcher_both_every : watchScroll :=
  new_fields (Some 0%nat) (VObj [("top", VBool true)]) (VFun 1) (VFun 2) (VBool true).

(** {top: "hidden", left: 1, bottom: false} with both callbacks. *)
Definition watcher_edges : watchScroll :=
  watcher_with (VObj [("top", VStr "hidden"); ("left", VNum 1); ("bottom", VBool false)]).

(** A watcher whose conditions are a string other than "all": the recorded
    match is "all", the conditions are not, onEveryScrollEvent is falsy. *)
Definition other_string_state (w : watchScroll) : Prop :=
  conditionsMatch w = VStr "all"
  /\ strict_eq (VStr "all") (conditions w) = false
  /\ truthy (onEveryScrollEvent w) = false.

(** The listeners that one [setupEvents] registers for its handler [h]. *)
Definition attached (env : Env) (h : nat) : list (string * nat) :=
  match eventsApi env with
  | AddEventListener => [("scroll", h); ("resize", h)]
  | AttachEvent => [("onscroll", h); ("onresize", h)]
  | NoEvents => []
  end.

(** A window that has attachEvent only. *)
Definition env_legacy : Env :=
  {| clientRect := DOMRect.mk 10 50 50 10;
     innerWidth := 800; innerHeight := 600; eventsApi := AttachEvent |}.

(** The host answers an operation runs under. *)
Definition env_of_op (o : op) : Env :=
  match o with
  | CheckPosition env _ | On env _ _ _ _ | Always env _ | SetupEvents env | Cancel env => env
  end.

(** An element from the doubles nearest 0.1 to 1599.9 across an 800x600
    viewport. *)
Definition env_rounding : Env :=
  {| clientRect := DOMRect.mk 10 0x1.8ff999999999ap+10 50 0x1.999999999999ap-4;
     innerWidth := 800; innerHeight := 600; eventsApi := AddEventListener |}.

(** * Properties *)

(** ** General facts about [checkPosition] *)

Lemma json_roundtrip_id (s : Status.t) : Status.json_roundtrip s = s.
Proof. destruct s; reflexivity. Qed.

(** With an element bound, [checkPosition] is this straight-line program. *)
Lemma checkPosition_bound env event w el :
  element w = Some el ->
  checkPosition env event w =
    let w1 := set_status (compute_status env) w in
    let mc := match_conditions w1 (status w) in
    if gate w1 (fst mc) (snd mc)
    then Ok (record_match (fst mc) w1, dispatch el event (record_match (fst mc) w1))
    else Ok (w1, []).
Proof.
  intros Hel. unfold checkPosition. rewrite Hel, json_roundtrip_id.
  cbv zeta. destruct (match_conditions _ _) as [m c]. reflexivity.
Qed.

Lemma checkPosition_total env event w el :
  element w = Some el ->
  exists w' calls, checkPosition env event w = Ok (w', calls).
Proof.
  intros Hel. rewrite (checkPosition_bound env event w el Hel). cbv zeta.
  destruct (gate _ _ _); eauto.
Qed.

Lemma checkPosition_unbound env event w :
  element w = None -> checkPosition env event w = Throw TypeError.
Proof. intros Hel. unfold checkPosition. now rewrite Hel. Qed.

Lemma checkPosition_Ok_bound env event w w' calls :
  checkPosition env event w = Ok (w', calls) -> exists el, element w = Some el.
Proof.
  unfold checkPosition. destruct (element w) as [el|]; [eauto | discriminate].
Qed.

Lemma record_match_frame m w :
  element (record_match m w) = element w
  /\ status (record_match m w) = status w
  /\ conditions (record_match m w) = conditions w
  /\ callbackTrue (record_match m w) = callbackTrue w
  /\ callbackFalse (record_match m w) = callbackFalse w
  /\ onEveryScrollEvent (record_match m w) = onEveryScrollEvent w
  /\ scrollHandler (record_match m w) = scrollHandler w.
Proof. unfold record_match. destruct (negb _); repeat split. Qed.

(** What an evaluation leaves alone, and the status it stores. *)
Lemma checkPosition_frame env event w w' calls :
  checkPosition env event w = Ok (w', calls) ->
  element w' = element w
  /\ status w' = compute_status env
  /\ conditions w' = conditions w
  /\ callbackTrue w' = callbackTrue w
  /\ callbackFalse w' = callbackFalse w
  /\ onEveryScrollEvent w' = onEveryScrollEvent w
  /\ scrollHandler w' = scrollHandler w.
Proof.
  intros H. destruct (checkPosition_Ok_bound _ _ _ _ _ H) as [el Hel].
  rewrite (checkPosition_bound env event w el Hel) in H. cbv zeta in H.
  destruct (gate _ _ _); inversion H; subst; clear H.
  - destruct (record_match_frame
                (fst (match_conditions (set_status (compute_status env) w) (status w)))
                (set_status (compute_status env) w))
      as (-> & -> & -> & -> & -> & -> & ->).
    repeat split.
  - repeat split.
Qed.

(** The call of lines 278-282, case by case. *)
Lemma dispatch_cases el event w :
  (truthy (conditionsMatch w) = true /\ is_function (callbackTrue w) = true
   /\ dispatch el event w =
        [ {| via := CallbackTrue; callee := callbackTrue w; thisArg := el;
             argEvent := event; argStatus := status w |} ])
  \/ (truthy (conditionsMatch w) = false /\ is_function (callbackFalse w) = true
      /\ dispatch el event w =
           [ {| via := CallbackFalse; callee := callbackFalse w; thisArg := el;
                argEvent := event; argStatus := status w |} ])
  \/ (truthy (conditionsMatch w) = true /\ is_function (callbackTrue w) = false
      /\ dispatch el event w = [])
  \/ (truthy (conditionsMatch w) = false /\ is_function (callbackFalse w) = false
      /\ dispatch el event w = []).
Proof.
  unfold dispatch.
  destruct (truthy (conditionsMatch w)), (is_function (callbackTrue w)),
    (is_function (callbackFalse w)); cbn; tauto.
Qed.

Lemma dispatch_falsy el event w c :
  truthy (conditionsMatch w) = false -> In c (dispatch el event w) -> via c = CallbackFalse.
Proof.
  intros Hf Hin.
  destruct (dispatch_cases el event w) as [(Ht & _)|[(_ & _ & E)|[(Ht & _)|(_ & _ & E)]]];
    try congruence; rewrite E in Hin; simpl in Hin.
  - destruct Hin as [<-|[]]. reflexivity.
  - destruct Hin.
Qed.

Lemma dispatch_truthy el event w c :
  truthy (conditionsMatch w) = true -> In c (dispatch el event w) -> via c = CallbackTrue.
Proof.
  intros Hf Hin.
  destruct (dispatch_cases el event w) as [(_ & _ & E)|[(Ht & _)|[(_ & _ & E)|(Ht & _)]]];
    try congruence; rewrite E in Hin; simpl in Hin.
  - destruct Hin as [<-|[]]. reflexivity.
  - destruct Hin.
Qed.

Lemma record_match_recorded m w :
  strict_eq (VStr "all") (conditionsMatch w) = false ->
  record_match m w = set_conditionsMatch (VBool m) w.
Proof. intros H. unfold record_match. now rewrite H. Qed.

Lemma record_match_all m w :
  strict_eq (VStr "all") (conditionsMatch w) = true -> record_match m w = w.
Proof. intros H. unfold record_match. now rewrite H. Qed.

(** ** Status computation *)

Lemma within_iff (x hi : float) :
  PrimFloat.leb 0 x && PrimFloat.leb x hi = true <-> (0 <= x /\ x <= hi)%double.
Proof. unfold dle. rewrite andb_true_iff. reflexivity. Qed.

Lemma center_iff (x y wd ht : float) :
  PrimFloat.leb 0 x && PrimFloat.leb 0 y && PrimFloat.leb x wd && PrimFloat.leb y ht = true
  <-> ((0 <= x /\ x <= wd) /\ (0 <= y /\ y <= ht))%double.
Proof. unfold dle. rewrite !andb_true_iff. tauto. Qed.

(** C6: after an evaluation, each edge flag is true exactly when that edge's
    coordinate lies within [0, viewport extent] on its axis, and
    centerIsVisible is true exactly when the midpoint
    ((left+right)/2, (top+bottom)/2) lies within
    [0, innerWidth] x [0, innerHeight]. *)
Theorem checkPosition_flags env event w el :
  element w = Some el ->
  exists w' calls,
    checkPosition env event w = Ok (w', calls)
    /\ let r := clientRect env in
       flag_is (Status.top (status w'))
               (0 <= DOMRect.top r /\ DOMRect.top r <= innerHeight env)%double
       /\ flag_is (Status.bottom (status w'))
                  (0 <= DOMRect.bottom r /\ DOMRect.bottom r <= innerHeight env)%double
       /\ flag_is (Status.left (status w'))
                  (0 <= DOMRect.left r /\ DOMRect.left r <= innerWidth env)%double
       /\ flag_is (Status.right (status w'))
                  (0 <= DOMRect.right r /\ DOMRect.right r <= innerWidth env)%double
       /\ flag_is (Status.centerIsVisible (status w'))
                  ((0 <= (DOMRect.left r + DOMRect.right r) / 2
                    /\ (DOMRect.left r + DOMRect.right r) / 2 <= innerWidth env)
                   /\ (0 <= (DOMRect.top r + DOMRect.bottom r) / 2
                       /\ (DOMRect.top r + DOMRect.bottom r) / 2 <= innerHeight env))%double.
Proof.
  intros Hel. destruct (checkPosition_total env event w el Hel) as (w' & calls & H).
  exists w', calls. split; [exact H|].
  destruct (checkPosition_frame _ _ _ _ _ H) as (_ & -> & _).
  cbv zeta. unfold compute_status, flag_is; cbn [Status.top Status.bottom Status.left
    Status.right Status.centerIsVisible].
  repeat split; eexists; (split; [reflexivity|]);
    first [apply within_iff | apply center_iff].
Qed.

Lemma checkPosition_flags_witness :
  element watcher_all = Some 0%nat
  /\ exists w' calls,
       checkPosition env_rounding VUndefined watcher_all = Ok (w', calls)
       /\ flag_is (Status.top (status w')) (0 <= 10 /\ 10 <= 600)%double
       /\ flag_is (Status.centerIsVisible (status w'))
                  ((0 <= (DOMRect.left (clientRect env_rounding)
                          + DOMRect.right (clientRect env_rounding)) / 2
                    /\ (DOMRect.left (clientRect env_rounding)
                        + DOMRect.right (clientRect env_rounding)) / 2 <= 800)
                   /\ (0 <= (10 + 50) / 2 /\ (10 + 50) / 2 <= 600))%double.
Proof.
  split; [reflexivity|].
  destruct (checkPosition_flags env_rounding VUndefined watcher_all 0%nat eq_refl)
    as (w' & calls & H & Ht & _ & _ & _ & Hc).
  exists w', calls. split; [exact H|]. split; [exact Ht | exact Hc].
Defined.

(** The midpoint is the rounded one: for left = 0.1 and right = 1599.9 (as
    doubles) the sum is exactly 1600 and the midpoint exactly 800, so with
    innerWidth = 800 the evaluation stores centerIsVisible = true. *)
Lemma midpoint_is_rounded :
  ((DOMRect.left (clientRect env_rounding) + DOMRect.right (clientRect env_rounding)) / 2
   = 800)%float
  /\ Status.centerIsVisible (compute_status env_rounding) = Some true.
Proof. split; reflexivity. Qed.

(** The [overflow] branch of line 250 compares the boolean flags, read as 0
    or 1, with 0 and with the viewport extent: [flag < 0] never holds. *)
Lemma overflow_test_false (t b l r : bool) (wd ht : float) :
  PrimFloat.ltb (num_of_bool t) 0 && PrimFloat.ltb ht (num_of_bool b)
  && PrimFloat.ltb (num_of_bool l) 0 && PrimFloat.ltb wd (num_of_bool r) = false.
Proof. destruct t; reflexivity. Qed.

Lemma visibility_never_overflow env :
  Status.visibility (compute_status env) <> Some overflow.
Proof.
  unfold compute_status; cbn [Status.visibility]. rewrite overflow_test_false.
  destruct (_ && _ && _ && _); [discriminate|].
  destruct (_ && _); discriminate.
Qed.

(** Comparing two doubles the other way round gives the opposite order. *)
Lemma SFcompare_antisym a b :
  SFcompare b a = option_map CompOpp (SFcompare a b).
Proof.
  destruct a as [sa|sa| |sa ma ea], b as [sb|sb| |sb mb eb]; cbn;
    try reflexivity; try (destruct sa; reflexivity); try (destruct sb; reflexivity);
    try (destruct sa, sb; reflexivity).
  destruct sa, sb; cbn; try reflexivity;
    rewrite (Z.compare_antisym ea eb); destruct (ea ?= eb)%Z; cbn; try reflexivity;
    change (Pos.compare_cont Eq mb ma) with (Pos.compare mb ma);
    change (Pos.compare_cont Eq ma mb) with (Pos.compare ma mb);
    rewrite (Pos.compare_antisym ma mb); destruct (ma ?= mb)%positive; reflexivity.
Qed.

Lemma dlt_not_dle (x y : float) : (x < y)%double -> PrimFloat.leb y x = false.
Proof.
  unfold dlt. rewrite ltb_spec, leb_spec. unfold SFltb, SFleb.
  rewrite (SFcompare_antisym (Prim2SF x) (Prim2SF y)).
  destruct (SFcompare (Prim2SF x) (Prim2SF y)) as [[]|]; cbn; congruence.
Qed.

Lemma outside_flag (x hi : float) :
  (x < 0 \/ hi < x)%double -> PrimFloat.leb 0 x && PrimFloat.leb x hi = false.
Proof.
  intros [H|H]; rewrite (dlt_not_dle _ _ H); [reflexivity | apply andb_false_r].
Qed.

(** C3 (the code departs from the claim): for a bounding box that strictly
    encloses the viewport (top < 0, bottom > innerHeight, left < 0,
    right > innerWidth) the evaluation stores visibility "hidden", not
    "overflow": all four edge flags are false and line 250 tests the flags
    instead of the coordinates. *)
Theorem enclosing_box_is_hidden env event w el :
  element w = Some el ->
  (DOMRect.top (clientRect env) < 0)%double ->
  (innerHeight env < DOMRect.bottom (clientRect env))%double ->
  (DOMRect.left (clientRect env) < 0)%double ->
  (innerWidth env < DOMRect.right (clientRect env))%double ->
  exists w' calls,
    checkPosition env event w = Ok (w', calls)
    /\ Status.visibility (status w') = Some hidden
    /\ Status.visibility (status w') <> Some overflow.
Proof.
  intros Hel Ht Hb Hl Hr.
  destruct (checkPosition_total env event w el Hel) as (w' & calls & H).
  exists w', calls. split; [exact H|].
  destruct (checkPosition_frame _ _ _ _ _ H) as (_ & -> & _).
  split; [|apply visibility_never_overflow].
  unfold compute_status; cbn [Status.visibility].
  rewrite (outside_flag (DOMRect.top (clientRect env))) by (left; assumption).
  rewrite (outside_flag (DOMRect.bottom (clientRect env))) by (right; assumption).
  rewrite (outside_flag (DOMRect.left (clientRect env))) by (left; assumption).
  rewrite (outside_flag (DOMRect.right (clientRect env))) by (right; assumption).
  reflexivity.
Qed.

Lemma enclosing_box_is_hidden_witness :
  element watcher_all = Some 0%nat
  /\ (DOMRect.top (clientRect env_enclosing) < 0)%double
  /\ (innerHeight env_enclosing < DOMRect.bottom (clientRect env_enclosing))%double
  /\ (DOMRect.left (clientRect env_enclosing) < 0)%double
  /\ (innerWidth env_enclosing < DOMRect.right (clientRect env_enclosing))%double
  /\ exists w' calls,
       checkPosition env_enclosing VUndefined watcher_all = Ok (w', calls)
       /\ Status.visibility (status w') = Some hidden
       /\ Status.visibility (status w') <> Some overflow.
Proof.
  repeat (split; [reflexivity|]).
  apply (enclosing_box_is_hidden env_enclosing VUndefined watcher_all 0%nat);
    reflexivity.
Defined.

(** ** The scenario of an element above the viewport *)

(** C1 (the code departs from the claim): with box
    {top:-1000, bottom:-900, left:10, right:50}, viewport 800x600, condition
    {visibility:"hidden"} and an unset recorded match, the evaluation does
    compute visibility "hidden", but it records the match as false and calls
    callbackFalse: line 267 asks [status.visibility] to be the boolean
    [false], which the string "hidden" is not. *)
Theorem visibility_hidden_condition_fails :
  conditionsMatch watcher_visibility_hidden = VNull
  /\ checkPosition env_above VUndefined watcher_visibility_hidden
     = Ok (set_conditionsMatch (VBool false)
             (set_status status_above watcher_visibility_hidden),
           [ {| via := CallbackFalse; callee := VFun 2; thisArg := 0%nat;
                argEvent := VUndefined; argStatus := status_above |} ]).
Proof. split; [reflexivity | vm_compute; reflexivity]. Qed.

(** ** Matching a conditions object *)

Lemma get_unknown_side (st : Status.t) (side : string) :
  ~ In side Status.keys -> Status.get st side = VUndefined.
Proof.
  intros Hn. unfold Status.get.
  repeat match goal with
  | |- context [String.eqb side ?k] =>
      destruct (String.eqb_spec side k) as [->|_];
      [exfalso; apply Hn; simpl; tauto|]
  end.
  reflexivity.
Qed.

(** A property whose status value is no boolean is never satisfied. *)
Lemma side_fails_non_boolean (st : Status.t) (side : string) (c : value) :
  (forall b, Status.get st side <> VBool b) -> side_fails st side c = true.
Proof.
  intros Hnb. unfold side_fails.
  destruct (Status.get st side) eqn:E; try (destruct (strict_eq (VStr "hidden") c); reflexivity).
  exfalso. apply (Hnb b). reflexivity.
Qed.

Lemma conditions_loop_failing (st : Status.t) (fields : list (string * value)) (side : string) :
  In side (map fst fields) ->
  (forall c, side_fails st side c = true) ->
  conditions_loop st fields = (false, true).
Proof.
  intros Hin Hfail. induction fields as [|[k c] rest IH]; [destruct Hin|].
  simpl. destruct (side_fails st k c) eqn:E; [reflexivity|].
  destruct Hin as [Hk|Hin]; [|exact (IH Hin)].
  simpl in Hk. subst k. rewrite Hfail in E. discriminate.
Qed.

(** A conditions object that names [visibility] never matches, whatever
    value it asks for: the status holds a string there, and line 267
    compares it with a boolean. *)
Lemma visibility_condition_never_matches env w fields previousStatus :
  conditions w = VObj fields ->
  (conditionsMatch w = VNull \/ exists b, conditionsMatch w = VBool b) ->
  In "visibility" (map fst fields) ->
  match_conditions (set_status (compute_status env) w) previousStatus = (false, true).
Proof.
  intros Hc Hm Hin. unfold match_conditions.
  cbn [conditionsMatch conditions set_status status]. rewrite Hc.
  replace (strict_eq (VStr "all") (conditionsMatch w)) with false
    by (destruct Hm as [->|[b ->]]; reflexivity).
  replace (strict_eq (VStr "all") (VObj fields)) with false by reflexivity.
  cbn [orb typeof jstype_eqb].
  apply (conditions_loop_failing _ _ "visibility" Hin).
  intros c. apply side_fails_non_boolean. intros b.
  unfold compute_status, Status.get. cbn. discriminate.
Qed.

(** C2 (as claimed, refuted): the property name [foo] is none of the six
    status names, yet with it the evaluation records "no match" and without
    it the same evaluation records "match". *)
Lemma unrecognized_field_changes_match :
  ~ In "foo" Status.keys
  /\ remove_field "foo" [("foo", VBool true)] = []
  /\ (exists w1 calls1,
        checkPosition env_full VUndefined (watcher_with (VObj [("foo", VBool true)]))
        = Ok (w1, calls1)
        /\ conditionsMatch w1 = VBool false)
  /\ (exists w2 calls2,
        checkPosition env_full VUndefined
          (watcher_with (VObj (remove_field "foo" [("foo", VBool true)])))
        = Ok (w2, calls2)
        /\ conditionsMatch w2 = VBool true).
Proof.
  split; [simpl; intuition discriminate|].
  split; [reflexivity|].
  split; eexists; eexists; (split; [vm_compute; reflexivity | reflexivity]).
Qed.

(** C2 (amended): a property of the conditions object whose name is none of
    top, right, bottom, left, centerIsVisible, visibility does take part in
    matching and always fails it: whatever the geometry and the other
    properties, the evaluation computes "no match", records false, and calls
    no callback other than callbackFalse. *)
Theorem unrecognized_field_fails_match env event w el fields side :
  element w = Some el ->
  conditions w = VObj fields ->
  (conditionsMatch w = VNull \/ exists b, conditionsMatch w = VBool b) ->
  In side (map fst fields) ->
  ~ In side Status.keys ->
  exists w' calls,
    checkPosition env event w = Ok (w', calls)
    /\ fst (match_conditions (set_status (compute_status env) w) (status w)) = false
    /\ conditionsMatch w' = VBool false
    /\ forall c, In c calls -> via c = CallbackFalse.
Proof.
  intros Hel Hc Hm Hin Hnot.
  assert (Hmc : match_conditions (set_status (compute_status env) w) (status w)
                = (false, true)).
  { unfold match_conditions; cbn [conditionsMatch conditions set_status status].
    rewrite Hc. replace (strict_eq (VStr "all") (conditionsMatch w)) with false
      by (destruct Hm as [->|[b ->]]; reflexivity).
    cbn. apply (conditions_loop_failing _ _ side Hin).
    intros c. apply side_fails_non_boolean. intros b.
    rewrite get_unknown_side by assumption. discriminate. }
  assert (Hna : strict_eq (VStr "all") (conditionsMatch w) = false)
    by (destruct Hm as [->|[b ->]]; reflexivity).
  rewrite (checkPosition_bound env event w el Hel). cbv zeta. rewrite Hmc.
  cbn [fst snd]. destruct (gate _ false true) eqn:G.
  - rewrite record_match_recorded by exact Hna.
    do 2 eexists. split; [reflexivity|]. split; [reflexivity|]. split; [reflexivity|].
    intros c. apply dispatch_falsy. reflexivity.
  - do 2 eexists. split; [reflexivity|]. split; [reflexivity|]. split; [|intros c []].
    cbn [conditionsMatch set_status]. unfold gate in G.
    cbn [conditionsMatch set_status] in G.
    destruct Hm as [Hm|[[|] Hm]]; rewrite Hm in G |- *; cbn in G;
      try discriminate. reflexivity.
Qed.

Lemma unrecognized_field_fails_match_witness :
  element (watcher_with (VObj [("top", VBool true); ("foo", VBool true)])) = Some 0%nat
  /\ In "foo" (map fst [("top", VBool true); ("foo", VBool true)])
  /\ ~ In "foo" Status.keys
  /\ exists w' calls,
       checkPosition env_full VUndefined
         (watcher_with (VObj [("top", VBool true); ("foo", VBool true)]))
       = Ok (w', calls)
       /\ conditionsMatch w' = VBool false.
Proof.
  split; [reflexivity|].
  split; [simpl; tauto|].
  split; [simpl; intuition discriminate|].
  destruct (unrecognized_field_fails_match env_full VUndefined
              (watcher_with (VObj [("top", VBool true); ("foo", VBool true)]))
              0%nat [("top", VBool true); ("foo", VBool true)] "foo"
              eq_refl eq_refl (or_introl eq_refl))
    as (w' & calls & H & _ & Hm & _).
  - simpl; tauto.
  - simpl; intuition discriminate.
  - exists w', calls. split; assumption.
Defined.

(** ** Configuration methods *)

Lemma strict_eq_all (v : value) : strict_eq (VStr "all") v = true <-> v = VStr "all".
Proof.
  split; [|intros ->; reflexivity].
  destruct v; try discriminate.
  unfold strict_eq. intros H. apply String.eqb_eq in H. now subst.
Qed.

Lemma setupEvents_self env x :
  self (setupEvents env x) = set_scrollHandler (closures x) (self x).
Proof. unfold setupEvents. destruct (eventsApi env); reflexivity. Qed.

(** An evaluation of a watcher whose recorded match is "all" leaves it "all"
    and can only call callbackTrue. *)
Lemma checkPosition_all env event w w' calls :
  conditionsMatch w = VStr "all" ->
  checkPosition env event w = Ok (w', calls) ->
  conditionsMatch w' = VStr "all" /\ forall c, In c calls -> via c = CallbackTrue.
Proof.
  intros Hall H. destruct (checkPosition_Ok_bound _ _ _ _ _ H) as [el Hel].
  rewrite (checkPosition_bound env event w el Hel) in H. cbv zeta in H.
  destruct (gate _ _ _).
  - rewrite record_match_all in H by (cbn; rewrite Hall; reflexivity).
    inversion H; subst; clear H. split; [exact Hall|].
    intros c. apply dispatch_truthy. cbn. rewrite Hall. reflexivity.
  - inversion H; subst; clear H. split; [exact Hall | intros c []].
Qed.

(** With no element, the shared tail of the configuration methods returns at
    once. *)
Lemma attach_and_check_unbound env x :
  element (self x) = None ->
  attach_and_check env x = {| returned := RetUndefined; world := x; evaluation := None |}.
Proof. intros H. unfold attach_and_check. now rewrite H. Qed.

(** What the shared tail leaves alone. *)
Lemma attach_and_check_frame env x :
  let w' := self (world (attach_and_check env x)) in
  element w' = element (self x)
  /\ conditions w' = conditions (self x)
  /\ callbackTrue w' = callbackTrue (self x)
  /\ callbackFalse w' = callbackFalse (self x)
  /\ onEveryScrollEvent w' = onEveryScrollEvent (self x).
Proof.
  cbv zeta. unfold attach_and_check.
  destruct (element (self x)) as [el|] eqn:Hel; [|cbn; repeat split; exact Hel].
  destruct (_ && _); [|cbn; repeat split; exact Hel].
  assert (Hel1 : element (self (setupEvents env x)) = Some el)
    by (rewrite setupEvents_self; exact Hel).
  destruct (checkPosition_total env VUndefined _ el Hel1) as (w1 & calls & H).
  rewrite H. cbn [world self with_self].
  destruct (checkPosition_frame _ _ _ _ _ H) as (-> & _ & -> & -> & -> & -> & _).
  rewrite setupEvents_self. repeat split. exact Hel.
Qed.

Lemma attach_and_check_all env x :
  conditionsMatch (self x) = VStr "all" ->
  conditionsMatch (self (world (attach_and_check env x))) = VStr "all"
  /\ forall calls c,
       evaluation (attach_and_check env x) = Some calls -> In c calls ->
       via c = CallbackTrue.
Proof.
  intros Hall. unfold attach_and_check.
  destruct (element (self x)) as [el|] eqn:Hel; [|cbn; split; [exact Hall | discriminate]].
  destruct (_ && _); [|cbn; split; [exact Hall | discriminate]].
  assert (Hel1 : element (self (setupEvents env x)) = Some el)
    by (rewrite setupEvents_self; exact Hel).
  destruct (checkPosition_total env VUndefined _ el Hel1) as (w1 & calls & H).
  rewrite H. cbn [world self with_self evaluation].
  assert (Hall1 : conditionsMatch (self (setupEvents env x)) = VStr "all")
    by (rewrite setupEvents_self; exact Hall).
  destruct (checkPosition_all _ _ _ _ _ Hall1 H) as [Hm Hv].
  split; [exact Hm|]. intros calls' c E. inversion E; subst. apply Hv.
Qed.

(** C5 (as claimed, refuted): a watcher configured with callbackFalse [VFun 2]
    still holds that function after [always]. *)
Lemma always_keeps_callbackFalse :
  callbackFalse (watcher_with (VObj [("top", VBool true)])) = VFun 2
  /\ callbackFalse
       (self (world (always env_full (VFun 3)
                       (blank_world (watcher_with (VObj [("top", VBool true)]))))))
     = VFun 2.
Proof. split; vm_compute; reflexivity. Qed.

(** C5 (amended): after [always( callbackTrue )] the conditions and the
    recorded match are "all" and callbackTrue is the function passed;
    callbackFalse is not cleared but keeps its previous value, as do the
    element and onEveryScrollEvent; the evaluation that [always] runs calls
    nothing but callbackTrue. *)
Theorem always_effect env cb x :
  let r := always env cb x in
  let w' := self (world r) in
  conditions w' = VStr "all"
  /\ conditionsMatch w' = VStr "all"
  /\ callbackTrue w' = cb
  /\ callbackFalse w' = callbackFalse (self x)
  /\ onEveryScrollEvent w' = onEveryScrollEvent (self x)
  /\ element w' = element (self x)
  /\ forall calls c, evaluation r = Some calls -> In c calls -> via c = CallbackTrue.
Proof.
  cbv zeta. unfold always.
  match goal with |- context [attach_and_check env ?y] => set (x1 := y) end.
  destruct (attach_and_check_frame env x1) as (He & Hc & Ht & Hf & Ho).
  destruct (attach_and_check_all env x1 eq_refl) as [Hm Hv].
  rewrite He, Hc, Ht, Hf, Ho, Hm. repeat split. exact Hv.
Qed.

Lemma always_effect_witness :
  let r := always env_full (VFun 3) (blank_world (watcher_with center_condition)) in
  evaluation r
  = Some [ {| via := CallbackTrue; callee := VFun 3; thisArg := 0%nat;
              argEvent := VUndefined; argStatus := compute_status env_full |} ]
  /\ callbackFalse (self (world r)) = VFun 2
  /\ conditions (self (world r)) = VStr "all".
Proof.
  cbv zeta.
  destruct (always_effect env_full (VFun 3) (blank_world (watcher_with center_condition)))
    as (Hc & _ & _ & Hf & _).
  split; [vm_compute; reflexivity|]. split; [exact Hf | exact Hc].
Defined.

(** C4 (as claimed, refuted): evaluating a watcher that has no element
    throws, and [on] on such a watcher is not a no-op: it stores the
    conditions it is given. *)
Lemma checkPosition_throws_without_element :
  element (new_fields None VUndefined VUndefined VUndefined VUndefined) = None
  /\ checkPosition env_full VUndefined
       (new_fields None VUndefined VUndefined VUndefined VUndefined)
     = Throw TypeError
  /\ conditions
       (self (world (on env_full (VStr "all") (VFun 1) VUndefined VUndefined
                       (blank_world
                          (new_fields None VUndefined VUndefined VUndefined VUndefined)))))
     = VStr "all".
Proof. repeat split. Qed.

(** C4 (amended): with no element bound, the constructor, [on] and [always]
    store the configuration they are given (and reset the recorded match)
    without failing, without attaching a listener and without evaluating;
    [on] and [always] then return undefined, while [new] still yields the
    watcher; [checkPosition] itself throws when no element is bound; with an
    element bound it never fails, whatever the event argument (undefined
    included). *)
Theorem unbound_element_behaviour env x :
  (element (self x) = None ->
     (forall c t f e,
        let r := on env c t f e x in
        returned r = RetUndefined /\ evaluation r = None
        /\ listeners (world r) = listeners x
        /\ status (self (world r)) = status (self x)
        /\ conditionsMatch (self (world r)) = conditionsMatch_for c
        /\ conditions (self (world r)) = c /\ callbackTrue (self (world r)) = t
        /\ callbackFalse (self (world r)) = f
        /\ onEveryScrollEvent (self (world r)) = e)
     /\ (forall t,
           let r := always env t x in
           returned r = RetUndefined /\ evaluation r = None
           /\ listeners (world r) = listeners x
           /\ status (self (world r)) = status (self x)
           /\ conditionsMatch (self (world r)) = VStr "all"
           /\ conditions (self (world r)) = VStr "all"
           /\ callbackTrue (self (world r)) = t)
     /\ (forall c t f e,
           let r := constructor env x None c t f e in
           returned r = RetThis /\ evaluation r = None
           /\ listeners (world r) = listeners x
           /\ self (world r) = new_fields None c t f e)
     /\ (forall event, checkPosition env event (self x) = Throw TypeError))
  /\ (forall el, element (self x) = Some el ->
        forall event, exists w' calls, checkPosition env event (self x) = Ok (w', calls)).
Proof.
  split.
  - intros Hel. split; [|split; [|split]].
    + intros c t f e. cbv zeta. unfold on.
      rewrite attach_and_check_unbound by exact Hel. cbn. repeat split.
    + intros t. cbv zeta. unfold always.
      rewrite attach_and_check_unbound by exact Hel. cbn. repeat split.
    + intros c t f e. cbv zeta. unfold constructor. cbv zeta.
      rewrite attach_and_check_unbound by reflexivity. cbn. repeat split.
    + intros event. apply checkPosition_unbound. exact Hel.
  - intros el Hel event. apply (checkPosition_total env event (self x) el Hel).
Qed.

Lemma unbound_element_behaviour_witness :
  element (self (blank_world (new_fields None VUndefined VUndefined VUndefined VUndefined)))
  = None
  /\ checkPosition env_full VUndefined
       (self (blank_world (new_fields None VUndefined VUndefined VUndefined VUndefined)))
     = Throw TypeError
  /\ element (self (blank_world watcher_all)) = Some 0%nat
  /\ exists w' calls,
       checkPosition env_full VUndefined (self (blank_world watcher_all)) = Ok (w', calls).
Proof.
  split; [reflexivity|].
  split.
  - apply (proj1 (unbound_element_behaviour env_full
                    (blank_world (new_fields None VUndefined VUndefined VUndefined VUndefined)))
                 eq_refl).
  - split; [reflexivity|].
    apply (proj2 (unbound_element_behaviour env_full (blank_world watcher_all))
                 0%nat eq_refl VUndefined).
Defined.

(** ** Which callback an evaluation calls *)

(** C10: an evaluation invokes at most one callback; a call through
    callbackTrue happens only with a truthy recorded match and a call through
    callbackFalse only with a falsy one; and when the callback that the
    recorded match selects is not a function, nothing is called, whatever
    let the gate pass (onEveryScrollEvent included). *)
Theorem at_most_one_callback env event w w' calls :
  checkPosition env event w = Ok (w', calls) ->
  (length calls <= 1)%nat
  /\ (forall c, In c calls -> via c = CallbackTrue ->
        truthy (conditionsMatch w') = true
        /\ callee c = callbackTrue w' /\ is_function (callee c) = true)
  /\ (forall c, In c calls -> via c = CallbackFalse ->
        truthy (conditionsMatch w') = false
        /\ callee c = callbackFalse w' /\ is_function (callee c) = true)
  /\ (truthy (conditionsMatch w') = true -> is_function (callbackTrue w') = false ->
        calls = [])
  /\ (truthy (conditionsMatch w') = false -> is_function (callbackFalse w') = false ->
        calls = []).
Proof.
  intros H. destruct (checkPosition_Ok_bound _ _ _ _ _ H) as [el Hel].
  rewrite (checkPosition_bound env event w el Hel) in H. cbv zeta in H.
  destruct (gate _ _ _); inversion H; subst; clear H.
  - match goal with |- context [dispatch el event ?v] => set (w2 := v) end.
    destruct (dispatch_cases el event w2)
      as [(Ht & Hf & E)|[(Ht & Hf & E)|[(Ht & Hf & E)|(Ht & Hf & E)]]];
      rewrite E; cbn [length In];
      (split; [lia|]);
      (split; [intros c Hin Hv; try destruct Hin as [<-|[]]; try destruct Hin;
               cbn in Hv |- *; try discriminate; auto|]);
      (split; [intros c Hin Hv; try destruct Hin as [<-|[]]; try destruct Hin;
               cbn in Hv |- *; try discriminate; auto|]);
      split; intros; congruence.
  - cbn [length In]. split; [lia|]. repeat split; intros; tauto.
Qed.

Lemma at_most_one_callback_witness :
  checkPosition env_full VUndefined watcher_every_event
  = Ok (set_conditionsMatch (VBool true)
          (set_status (compute_status env_full) watcher_every_event), [])
  /\ (length (@nil call) <= 1)%nat
  /\ (truthy (VBool true) = true -> is_function VUndefined = false -> @nil call = []).
Proof.
  assert (E : checkPosition env_full VUndefined watcher_every_event
              = Ok (set_conditionsMatch (VBool true)
                      (set_status (compute_status env_full) watcher_every_event), []))
    by (vm_compute; reflexivity).
  split; [exact E|].
  destruct (at_most_one_callback env_full VUndefined watcher_every_event _ _ E)
    as (Hlen & _ & _ & Ht & _).
  split; [exact Hlen | exact Ht].
Defined.

(** ** The "all" condition *)

Lemma get_refl (s : Status.t) (side : string) :
  strict_eq (Status.get s side) (Status.get s side) = true.
Proof.
  unfold Status.get.
  repeat match goal with
  | |- context [String.eqb side ?k] => destruct (String.eqb side k)
  end;
  try match goal with
  | |- context [Status.of_flag ?f] => destruct f as [[|]|]; reflexivity
  end; [|reflexivity].
  destruct (Status.visibility s) as [v|]; [|reflexivity].
  cbn. apply String.eqb_refl.
Qed.

Lemma status_differs_same (s : Status.t) : status_differs s s = false.
Proof.
  unfold status_differs, Status.keys. cbn [existsb]. rewrite !get_refl. reflexivity.
Qed.

Lemma match_conditions_all w previousStatus :
  conditions w = VStr "all" ->
  match_conditions w previousStatus = (true, status_differs previousStatus (status w)).
Proof.
  intros H. unfold match_conditions. rewrite H.
  replace (strict_eq (VStr "all") (VStr "all")) with true by reflexivity.
  rewrite orb_true_r. reflexivity.
Qed.

Lemma gate_unfold w m c :
  gate w m c =
  transition_test (conditionsMatch w) m
  || truthy (onEveryScrollEvent w)
  || (strict_eq (VStr "all") (conditions w) && c).
Proof. reflexivity. Qed.

(** C8: with condition "all" and onEveryScrollEvent falsy, a second
    evaluation under the same geometry and viewport as the first calls no
    callback. *)
Theorem all_condition_second_evaluation_silent env event1 event2 w el :
  element w = Some el ->
  conditions w = VStr "all" ->
  truthy (onEveryScrollEvent w) = false ->
  exists w1 calls1 w2,
    checkPosition env event1 w = Ok (w1, calls1)
    /\ checkPosition env event2 w1 = Ok (w2, []).
Proof.
  intros Hel Hc He.
  destruct (checkPosition_total env event1 w el Hel) as (w1 & calls1 & H1).
  exists w1, calls1.
  destruct (checkPosition_frame _ _ _ _ _ H1) as (Hel1 & Hs1 & Hc1 & _ & _ & He1 & _).
  (* after the first evaluation the transition test is off *)
  assert (Ht : transition_test (conditionsMatch w1) true = false).
  { rewrite (checkPosition_bound env event1 w el Hel) in H1. cbv zeta in H1.
    rewrite match_conditions_all in H1 by exact Hc. cbn [fst snd] in H1.
    destruct (gate _ _ _) eqn:G.
    - inversion H1; subst w1; clear H1. unfold record_match.
      destruct (strict_eq (VStr "all") (conditionsMatch (set_status (compute_status env) w)))
        eqn:A; cbn [negb].
      + apply strict_eq_all in A. rewrite A. reflexivity.
      + reflexivity.
    - inversion H1; subst w1; clear H1. rewrite gate_unfold in G.
      apply orb_false_elim in G. destruct G as [G _].
      apply orb_false_elim in G. destruct G as [G _]. exact G. }
  rewrite <- Hel1 in Hel.
  rewrite (checkPosition_bound env event2 w1 el Hel). cbv zeta.
  rewrite match_conditions_all by (rewrite <- Hc; exact Hc1).
  cbn [fst snd status set_status]. rewrite Hs1, status_differs_same.
  rewrite gate_unfold. cbn [conditionsMatch conditions set_status onEveryScrollEvent].
  rewrite Ht, He1, He, andb_false_r. cbn [orb].
  eexists. split; [exact H1 | reflexivity].
Qed.

Lemma all_condition_second_evaluation_silent_witness :
  element watcher_all = Some 0%nat
  /\ conditions watcher_all = VStr "all"
  /\ truthy (onEveryScrollEvent watcher_all) = false
  /\ exists w1 calls1 w2,
       checkPosition env_full VUndefined watcher_all = Ok (w1, calls1)
       /\ checkPosition env_full VUndefined w1 = Ok (w2, []).
Proof.
  repeat (split; [reflexivity|]).
  apply (all_condition_second_evaluation_silent env_full VUndefined VUndefined
           watcher_all 0%nat); reflexivity.
Defined.

(** ** The status record over a watcher's life *)

Lemma compute_status_definite env : definite (compute_status env).
Proof. unfold compute_status, definite. do 6 eexists. reflexivity. Qed.

Lemma initial_not_definite : ~ definite Status.initial.
Proof. intros (t & r & b & l & c & v & H). discriminate. Qed.

(** The shared tail of the configuration methods either evaluates, and then
    stores the computed status, or leaves the status alone. *)
Lemma attach_and_check_status env x :
  match evaluation (attach_and_check env x) with
  | Some _ => status (self (world (attach_and_check env x))) = compute_status env
  | None => status (self (world (attach_and_check env x))) = status (self x)
  end.
Proof.
  unfold attach_and_check.
  destruct (element (self x)) as [el|] eqn:Hel; [|reflexivity].
  destruct (_ && _); [|reflexivity].
  assert (Hel1 : element (self (setupEvents env x)) = Some el)
    by (rewrite setupEvents_self; exact Hel).
  destruct (checkPosition_total env VUndefined _ el Hel1) as (w1 & calls & H).
  rewrite H. cbn [world self with_self evaluation].
  now destruct (checkPosition_frame _ _ _ _ _ H) as (_ & -> & _).
Qed.

(** One operation either completes an evaluation, and then the status is
    definite, or leaves the status as it was. *)
Lemma step_status o x :
  match snd (step o x) with
  | Some _ => definite (status (self (fst (step o x))))
  | None => status (self (fst (step o x))) = status (self x)
  end.
Proof.
  destruct o as [env event|env c t f e|env t|env|env]; cbn [step].
  - destruct (checkPosition env event (self x)) as [[w calls]|err] eqn:H;
      cbn [fst snd self with_self]; [|reflexivity].
    destruct (checkPosition_frame _ _ _ _ _ H) as (_ & -> & _).
    apply compute_status_definite.
  - cbv zeta. cbn [fst snd]. unfold on.
    match goal with |- context [attach_and_check env ?y] =>
      pose proof (attach_and_check_status env y) as S; set (x1 := y) in * end.
    destruct (evaluation (attach_and_check env x1));
      [rewrite S; apply compute_status_definite | exact S].
  - cbv zeta. cbn [fst snd]. unfold always.
    match goal with |- context [attach_and_check env ?y] =>
      pose proof (attach_and_check_status env y) as S; set (x1 := y) in * end.
    destruct (evaluation (attach_and_check env x1));
      [rewrite S; apply compute_status_definite | exact S].
  - cbn [fst snd]. rewrite setupEvents_self. reflexivity.
  - unfold cancel. destruct (eventsApi env); [|reflexivity|reflexivity].
    destruct (scrollHandler (self x)); reflexivity.
Qed.

Lemma run_cons o rest x :
  run (o :: rest) x =
  (fst (run rest (fst (step o x))), snd (step o x) :: snd (run rest (fst (step o x)))).
Proof.
  cbn [run]. destruct (step o x) as [x1 e]. cbn [fst snd].
  destruct (run rest x1) as [x2 log]. reflexivity.
Qed.

Lemma evaluations_cons e log :
  evaluations (e :: log) =
  ((match e with Some _ => 1 | None => 0 end) + evaluations log)%nat.
Proof. unfold evaluations. cbn [filter]. destruct e; reflexivity. Qed.

Lemma run_status ops : forall x,
  (definite (status (self x)) -> definite (status (self (fst (run ops x)))))
  /\ match evaluations (snd (run ops x)) with
     | O => status (self (fst (run ops x))) = status (self x)
     | S _ => definite (status (self (fst (run ops x))))
     end.
Proof.
  induction ops as [|o rest IH]; intros x; [split; [auto | reflexivity]|].
  rewrite run_cons. cbn [fst snd]. rewrite evaluations_cons.
  pose proof (step_status o x) as Hs.
  destruct (IH (fst (step o x))) as [IHd IHe].
  destruct (snd (step o x)) as [calls|].
  - split; [intros _; apply IHd; exact Hs|]. cbn. apply IHd, Hs.
  - rewrite Hs in IHd. split; [exact IHd|]. cbn [plus].
    destruct (evaluations (snd (run rest (fst (step o x))))); [congruence | exact IHe].
Qed.

(** C9: the constructor creates the status with all six fields unset; they
    stay unset for as long as no evaluation has completed, and once one has
    (in the constructor or in any later operation) all six hold definite
    values, and every further operation keeps them definite. *)
Theorem status_unset_until_evaluated env0 x0 el c t f e ops :
  let r := constructor env0 x0 el c t f e in
  status (new_fields el c t f e) = Status.initial
  /\ match evaluations (evaluation r :: snd (run ops (world r))) with
     | O => status (self (fst (run ops (world r)))) = Status.initial
     | S _ => definite (status (self (fst (run ops (world r)))))
     end.
Proof.
  cbv zeta. split; [reflexivity|].
  rewrite evaluations_cons.
  set (r := constructor env0 x0 el c t f e).
  assert (Hr : match evaluation r with
               | Some _ => definite (status (self (world r)))
               | None => status (self (world r)) = Status.initial
               end).
  { subst r. unfold constructor. cbv zeta. cbn [evaluation world].
    match goal with |- context [attach_and_check env0 ?y] =>
      pose proof (attach_and_check_status env0 y) as S; set (x1 := y) in * end.
    destruct (evaluation (attach_and_check env0 x1));
      [rewrite S; apply compute_status_definite | exact S]. }
  destruct (run_status ops (world r)) as [Hd He].
  destruct (evaluation r).
  - cbn. apply Hd, Hr.
  - cbn [plus]. destruct (evaluations (snd (run ops (world r)))); [congruence | exact He].
Qed.

(** ** Edge-triggered notification for {centerIsVisible: true} *)

Lemma match_conditions_center env w :
  conditions w = center_condition ->
  (conditionsMatch w = VNull \/ exists b, conditionsMatch w = VBool b) ->
  match_conditions (set_status (compute_status env) w) (status w)
  = (centerIsVisible_now env, negb (centerIsVisible_now env)).
Proof.
  intros Hc Hm. unfold match_conditions.
  cbn [conditionsMatch conditions set_status status]. rewrite Hc.
  replace (strict_eq (VStr "all") (conditionsMatch w)) with false
    by (destruct Hm as [->|[b ->]]; reflexivity).
  unfold center_condition, centerIsVisible_now, compute_status.
  cbn [Status.centerIsVisible].
  match goal with |- context [Some (?a && ?b && ?c && ?d)] =>
    destruct (a && b && c && d) end; reflexivity.
Qed.

(** One evaluation of a watcher configured with {centerIsVisible: true}. *)
Lemma center_step env event w :
  center_watcher w ->
  exists w' calls,
    checkPosition env event w = Ok (w', calls)
    /\ conditionsMatch w' = VBool (centerIsVisible_now env)
    /\ map via calls = edge_callbacks (conditionsMatch w) (centerIsVisible_now env)
    /\ center_watcher w'.
Proof.
  intros ([el Hel] & Hc & Ht & Hf & He & Hm).
  assert (Hna : strict_eq (VStr "all")
                  (conditionsMatch (set_status (compute_status env) w)) = false)
    by (cbn [conditionsMatch set_status]; destruct Hm as [->|[b ->]]; reflexivity).
  rewrite (checkPosition_bound env event w el Hel). cbv zeta.
  rewrite (match_conditions_center env w Hc Hm). cbn [fst snd].
  rewrite gate_unfold. cbn [conditionsMatch conditions onEveryScrollEvent set_status].
  rewrite He, Hc. replace (strict_eq (VStr "all") center_condition) with false by reflexivity.
  cbn [andb]. rewrite !orb_false_r.
  set (m := centerIsVisible_now env). clearbody m.
  destruct (transition_test (conditionsMatch w) m) eqn:T.
  - rewrite record_match_recorded by exact Hna.
    do 2 eexists. split; [reflexivity|]. split; [reflexivity|]. split.
    + unfold dispatch, edge_callbacks.
      cbn [conditionsMatch callbackTrue callbackFalse set_conditionsMatch set_status truthy].
      rewrite Ht, Hf.
      replace (strict_eq (VBool m) (conditionsMatch w)) with false
        by (unfold transition_test in T; apply andb_true_iff in T;
            destruct T as [_ T]; now destruct (strict_eq (VBool m) (conditionsMatch w))).
      destruct m; reflexivity.
    + repeat split; try assumption; cbn; eauto.
  - assert (E : conditionsMatch w = VBool m).
    { unfold transition_test in T.
      destruct Hm as [Hm|[b Hm]]; rewrite Hm in T |- *; cbn in T; [discriminate|].
      destruct m, b; cbn in T; try discriminate; reflexivity. }
    do 2 eexists. split; [reflexivity|]. split; [exact E|]. split.
    + unfold edge_callbacks. rewrite E. cbn. now rewrite eqb_reflx.
    + repeat split; try assumption; cbn; eauto.
Qed.

(** The code's calls and the claim's differ in one case only: an unset
    recorded match and a computed match of false. *)
Lemma edge_callbacks_vs_claim recorded m :
  (recorded = VNull \/ exists b, recorded = VBool b) ->
  edge_callbacks recorded m = claimed_callbacks recorded m
  \/ (recorded = VNull /\ m = false
      /\ edge_callbacks recorded m = [CallbackFalse]
      /\ claimed_callbacks recorded m = []).
Proof.
  intros [->|[b ->]].
  - destruct m; [left; reflexivity | right; repeat split].
  - left. destruct m, b; reflexivity.
Qed.

(** C7 (as claimed, refuted): on the first evaluation after configuration
    the recorded match is unset (so it is not true, and no transition from
    true takes place), the center is outside the viewport, and callbackFalse
    is called all the same. *)
Lemma callbackFalse_without_reverse_transition :
  center_watcher (watcher_with center_condition)
  /\ conditionsMatch (watcher_with center_condition) = VNull
  /\ centerIsVisible_now env_above = false
  /\ claimed_callbacks (conditionsMatch (watcher_with center_condition))
       (centerIsVisible_now env_above) = []
  /\ exists w',
       checkPosition env_above VUndefined (watcher_with center_condition)
       = Ok (w', [ {| via := CallbackFalse; callee := VFun 2; thisArg := 0%nat;
                      argEvent := VUndefined; argStatus := status_above |} ]).
Proof.
  split; [unfold center_watcher; cbn; repeat split; eauto|].
  repeat (split; [reflexivity|]).
  eexists. vm_compute. reflexivity.
Qed.

(** C7 (amended): with condition {centerIsVisible: true}, both callbacks
    functions, onEveryScrollEvent falsy and the recorded match unset or
    boolean, every evaluation of any sequence completes, and calls
    callbackTrue exactly when the recorded match goes from not-true to true,
    callbackFalse exactly when it goes from not-false (unset or true) to
    false, and nothing when the computed match is the recorded one; the
    computed match is the centerIsVisible flag of that evaluation. *)
Theorem center_condition_calls (envs : list (Env * value)) : forall x,
  center_watcher (self x) ->
  let ops := map (fun p => CheckPosition (fst p) (snd p)) envs in
  map invoked (snd (run ops x)) = expected_calls (conditionsMatch (self x)) envs
  /\ evaluations (snd (run ops x)) = length envs
  /\ center_watcher (self (fst (run ops x))).
Proof.
  induction envs as [|[env event] rest IH]; intros x Hx; cbv zeta.
  - split; [reflexivity | split; [reflexivity | exact Hx]].
  - cbn [map fst snd]. rewrite run_cons. cbn [fst snd]. rewrite evaluations_cons.
    cbn [map step].
    destruct (center_step env event (self x) Hx) as (w' & calls & H & Hm & Hv & Hw').
    rewrite H. cbn [fst snd invoked expected_calls length].
    destruct (IH (with_self w' x) Hw') as (IH1 & IH2 & IH3).
    cbn [self with_self] in IH1. rewrite Hm in IH1.
    rewrite Hv, IH1, IH2. split; [reflexivity | split; [reflexivity | exact IH3]].
Qed.

Lemma center_condition_calls_witness :
  center_watcher (self (blank_world (watcher_with center_condition)))
  /\ map invoked
       (snd (run [CheckPosition env_above VUndefined;
                  CheckPosition env_above VUndefined;
                  CheckPosition env_center_inside VUndefined;
                  CheckPosition env_center_inside VUndefined;
                  CheckPosition env_above VUndefined]
                 (blank_world (watcher_with center_condition))))
     = [[CallbackFalse]; []; [CallbackTrue]; []; [CallbackFalse]].
Proof.
  assert (Hw : center_watcher (self (blank_world (watcher_with center_condition))))
    by (unfold center_watcher; cbn; repeat split; eauto).
  split; [exact Hw|].
  exact (proj1 (center_condition_calls
                  [(env_above, VUndefined); (env_above, VUndefined);
                   (env_center_inside, VUndefined); (env_center_inside, VUndefined);
                   (env_above, VUndefined)]
                  (blank_world (watcher_with center_condition)) Hw)).
Defined.

(** * Further properties of the code *)

(** ** Classification of the visibility *)

(** X1: the visibility an evaluation stores is "full" exactly when all four
    edge coordinates lie within the viewport's range on their axis,
    "partial" exactly when not all four do but at least one of top/bottom
    and at least one of left/right does, "hidden" exactly when no horizontal
    or no vertical edge does, and never "overflow". *)
Theorem visibility_classification env event w el :
  element w = Some el ->
  exists w' calls,
    checkPosition env event w = Ok (w', calls)
    /\ let r := clientRect env in
       let T := inside (DOMRect.top r) (innerHeight env) in
       let B := inside (DOMRect.bottom r) (innerHeight env) in
       let L := inside (DOMRect.left r) (innerWidth env) in
       let R := inside (DOMRect.right r) (innerWidth env) in
       let v := Status.visibility (status w') in
       (v = Some full <-> (T /\ B /\ L /\ R))
       /\ (v = Some partial <-> (~ (T /\ B /\ L /\ R) /\ (T \/ B) /\ (L \/ R)))
       /\ (v = Some hidden <-> ~ ((T \/ B) /\ (L \/ R)))
       /\ v <> Some overflow.
Proof.
  intros Hel. destruct (checkPosition_total env event w el Hel) as (w' & calls & H).
  exists w', calls. split; [exact H|].
  destruct (checkPosition_frame _ _ _ _ _ H) as (_ & -> & _).
  cbv zeta. unfold inside, compute_status; cbn [Status.visibility].
  rewrite overflow_test_false.
  rewrite <- !within_iff.
  match goal with |- context [if ?t && ?b && ?l && ?r then full else _] =>
    generalize t, b, l, r
  end.
  intros bt bb bl br.
  destruct bt, bb, bl, br; cbn;
    repeat split; intros; try discriminate; try tauto; intuition discriminate.
Qed.

Lemma visibility_classification_witness :
  element watcher_all = Some 0%nat
  /\ exists w' calls,
       checkPosition env_full VUndefined watcher_all = Ok (w', calls)
       /\ Status.visibility (status w') = Some full.
Proof.
  split; [reflexivity|].
  destruct (visibility_classification env_full VUndefined watcher_all 0%nat eq_refl)
    as (w' & calls & H & Hf & _).
  exists w', calls. split; [exact H|].
  apply Hf. unfold inside. cbn. repeat split; discriminate.
Defined.

(** X2: an element that sticks out of the viewport on both sides of one
    axis (top above 0 and bottom below innerHeight, or left before 0 and
    right beyond innerWidth) is classified "hidden", wherever it lies on the
    other axis and even when its center is visible. *)
Theorem spanning_element_is_hidden env event w el :
  element w = Some el ->
  ((DOMRect.top (clientRect env) < 0 /\ innerHeight env < DOMRect.bottom (clientRect env))
   \/ (DOMRect.left (clientRect env) < 0 /\ innerWidth env < DOMRect.right (clientRect env)))%double ->
  exists w' calls,
    checkPosition env event w = Ok (w', calls)
    /\ Status.visibility (status w') = Some hidden.
Proof.
  intros Hel Hspan.
  destruct (checkPosition_total env event w el Hel) as (w' & calls & H).
  exists w', calls. split; [exact H|].
  destruct (checkPosition_frame _ _ _ _ _ H) as (_ & -> & _).
  unfold compute_status; cbn [Status.visibility]. rewrite overflow_test_false.
  destruct Hspan as [[Ht Hb]|[Hl Hr]].
  - rewrite (outside_flag (DOMRect.top (clientRect env))) by (left; assumption).
    rewrite (outside_flag (DOMRect.bottom (clientRect env))) by (right; assumption).
    reflexivity.
  - rewrite (outside_flag (DOMRect.left (clientRect env))) by (left; assumption).
    rewrite (outside_flag (DOMRect.right (clientRect env))) by (right; assumption).
    rewrite !andb_false_r. reflexivity.
Qed.

Lemma spanning_element_is_hidden_witness :
  element watcher_all = Some 0%nat
  /\ (DOMRect.top (clientRect env_tall) < 0
      /\ innerHeight env_tall < DOMRect.bottom (clientRect env_tall))%double
  /\ Status.centerIsVisible (compute_status env_tall) = Some true
  /\ exists w' calls,
       checkPosition env_tall VUndefined watcher_all = Ok (w', calls)
       /\ Status.visibility (status w') = Some hidden.
Proof.
  split; [reflexivity|]. split; [split; reflexivity|]. split; [reflexivity|].
  apply (spanning_element_is_hidden env_tall VUndefined watcher_all 0%nat eq_refl).
  left. split; reflexivity.
Defined.

(** ** What a callback receives, and when one is certain *)

(** X5: every call an evaluation makes has the bound element as [this], the
    event that was passed to [checkPosition] as first argument and the
    status just computed and stored as second, and the function called is
    the one held by the field it was read from. *)
Theorem callback_arguments env event w w' calls c :
  checkPosition env event w = Ok (w', calls) ->
  In c calls ->
  element w = Some (thisArg c)
  /\ argEvent c = event
  /\ argStatus c = status w'
  /\ argStatus c = compute_status env
  /\ callee c = match via c with
                | CallbackTrue => callbackTrue w
                | CallbackFalse => callbackFalse w
                end.
Proof.
  intros H Hin. destruct (checkPosition_Ok_bound _ _ _ _ _ H) as [el Hel].
  pose proof (checkPosition_frame _ _ _ _ _ H) as (_ & Hs & _ & Ht & Hf & _).
  rewrite (checkPosition_bound env event w el Hel) in H. cbv zeta in H.
  destruct (gate _ _ _); inversion H; subst w' calls; clear H; [|destruct Hin].
  match goal with Hin : In c (dispatch el event ?v) |- _ => set (w2 := v) in * end.
  destruct (dispatch_cases el event w2)
    as [(_ & _ & E)|[(_ & _ & E)|[(_ & _ & E)|(_ & _ & E)]]];
    rewrite E in Hin; simpl in Hin; try destruct Hin as [<-|[]]; try destruct Hin;
    cbn [thisArg argEvent argStatus callee via];
    rewrite <- ?Ht, <- ?Hf, <- ?Hs; repeat split; exact Hel.
Qed.

Lemma callback_arguments_witness :
  exists w' c,
    checkPosition env_full (VStr "scroll") watcher_all = Ok (w', [c])
    /\ element watcher_all = Some (thisArg c)
    /\ argEvent c = VStr "scroll"
    /\ argStatus c = status w'.
Proof.
  do 2 eexists.
  assert (E : checkPosition env_full (VStr "scroll") watcher_all
              = Ok (set_status (compute_status env_full) watcher_all,
                    [ {| via := CallbackTrue; callee := VFun 1; thisArg := 0%nat;
                         argEvent := VStr "scroll";
                         argStatus := compute_status env_full |} ]))
    by (vm_compute; reflexivity).
  split; [exact E|].
  destruct (callback_arguments _ _ _ _ _ _ E (or_introl eq_refl)) as (A & B & C & _).
  split; [exact A|]. split; [exact B | exact C].
Defined.

(** X3: with onEveryScrollEvent truthy and both callbacks functions, every
    evaluation calls exactly one callback, chosen by the recorded match it
    leaves: callbackTrue when truthy, callbackFalse when falsy. *)
Theorem every_event_always_calls env event w el :
  element w = Some el ->
  truthy (onEveryScrollEvent w) = true ->
  is_function (callbackTrue w) = true ->
  is_function (callbackFalse w) = true ->
  exists w' c,
    checkPosition env event w = Ok (w', [c])
    /\ via c = (if truthy (conditionsMatch w') then CallbackTrue else CallbackFalse).
Proof.
  intros Hel He Ht Hf.
  rewrite (checkPosition_bound env event w el Hel). cbv zeta.
  rewrite gate_unfold. cbn [onEveryScrollEvent set_status]. rewrite He, orb_true_r.
  cbn [orb].
  match goal with |- context [dispatch el event ?v] => set (w2 := v) end.
  assert (Ht2 : is_function (callbackTrue w2) = true).
  { subst w2. destruct (record_match_frame
      (fst (match_conditions (set_status (compute_status env) w) (status w)))
      (set_status (compute_status env) w)) as (_ & _ & _ & -> & _). exact Ht. }
  assert (Hf2 : is_function (callbackFalse w2) = true).
  { subst w2. destruct (record_match_frame
      (fst (match_conditions (set_status (compute_status env) w) (status w)))
      (set_status (compute_status env) w)) as (_ & _ & _ & _ & -> & _). exact Hf. }
  destruct (dispatch_cases el event w2)
    as [(Hm & _ & E)|[(Hm & _ & E)|[(_ & F & _)|(_ & F & _)]]];
    try congruence; rewrite E; do 2 eexists; (split; [reflexivity|]);
    cbn [via]; rewrite Hm; reflexivity.
Qed.

Lemma every_event_always_calls_witness :
  element watcher_both_every = Some 0%nat
  /\ truthy (onEveryScrollEvent watcher_both_every) = true
  /\ exists w' c,
       checkPosition env_above VUndefined watcher_both_every = Ok (w', [c])
       /\ via c = (if truthy (conditionsMatch w') then CallbackTrue else CallbackFalse).
Proof.
  split; [reflexivity|]. split; [reflexivity|].
  apply (every_event_always_calls env_above VUndefined watcher_both_every 0%nat);
    reflexivity.
Defined.

(** ** Conditions objects: what a match means *)

Lemma strict_eq_bool_r (v : value) (b : bool) :
  strict_eq v (VBool b) = true <-> v = VBool b.
Proof.
  destruct v; cbn; try (split; intros; discriminate).
  destruct b0, b; cbn; split; intros; congruence.
Qed.

Lemma strict_eq_bool_l (v : value) (b : bool) :
  strict_eq (VBool b) v = true <-> v = VBool b.
Proof.
  destruct v; cbn; try (split; intros; discriminate).
  destruct b0, b; cbn; split; intros; congruence.
Qed.

Lemma side_fails_satisfied st side c :
  side_fails st side c = false <-> satisfied st (side, c).
Proof.
  unfold side_fails, satisfied, wanted; cbn [fst snd].
  destruct (strict_eq (VStr "hidden") c); cbn [andb negb orb].
  - rewrite orb_false_r, negb_false_iff. apply strict_eq_bool_l.
  - destruct (truthy c); rewrite negb_false_iff; apply strict_eq_bool_r.
Qed.

Lemma conditions_loop_satisfied st fields :
  (fst (conditions_loop st fields) = true <-> Forall (satisfied st) fields)
  /\ snd (conditions_loop st fields) = negb (fst (conditions_loop st fields)).
Proof.
  induction fields as [|[side c] rest [IH1 IH2]]; cbn [conditions_loop].
  - split; [split; [constructor | reflexivity] | reflexivity].
  - destruct (side_fails st side c) eqn:E; cbn [fst snd].
    + split; [|reflexivity]. split; [discriminate|].
      intros HF. inversion HF as [|? ? Hs _]; subst.
      apply side_fails_satisfied in Hs. congruence.
    + split; [|exact IH2]. rewrite IH1. split.
      * intros HF. constructor; [apply side_fails_satisfied; exact E | exact HF].
      * intros HF. inversion HF; assumption.
Qed.

Lemma transition_test_same (m : bool) : transition_test (VBool m) m = false.
Proof. destruct m; reflexivity. Qed.

Lemma transition_test_off (recorded : value) (m : bool) :
  (recorded = VNull \/ exists b, recorded = VBool b) ->
  transition_test recorded m = false -> recorded = VBool m.
Proof.
  intros [->|[b ->]]; [discriminate|].
  destruct m, b; cbn; intros; congruence.
Qed.

Lemma match_conditions_object w previousStatus fields :
  conditions w = VObj fields ->
  (conditionsMatch w = VNull \/ exists b, conditionsMatch w = VBool b) ->
  match_conditions w previousStatus = conditions_loop (status w) fields.
Proof.
  intros Hc Hm. unfold match_conditions. rewrite Hc.
  replace (strict_eq (VStr "all") (conditionsMatch w)) with false
    by (destruct Hm as [->|[b ->]]; reflexivity).
  reflexivity.
Qed.

(** X10: for a conditions object (recorded match unset or boolean), the
    recorded match after any evaluation is a boolean, and it is true exactly
    when every property of the object is satisfied by the stored status:
    the status holds [false] under a name whose value is "hidden", and the
    truthiness of the value under any other name.  This holds whether or not
    a callback was called. *)
Theorem recorded_match_meaning env event w el fields :
  element w = Some el ->
  conditions w = VObj fields ->
  (conditionsMatch w = VNull \/ exists b, conditionsMatch w = VBool b) ->
  exists w' calls m,
    checkPosition env event w = Ok (w', calls)
    /\ conditionsMatch w' = VBool m
    /\ (m = true <-> Forall (satisfied (status w')) fields).
Proof.
  intros Hel Hc Hm.
  set (w1 := set_status (compute_status env) w).
  assert (Hmc : match_conditions w1 (status w) = conditions_loop (compute_status env) fields)
    by (apply match_conditions_object; [exact Hc | exact Hm]).
  destruct (conditions_loop_satisfied (compute_status env) fields) as [Hsat _].
  rewrite (checkPosition_bound env event w el Hel). cbv zeta. fold w1. rewrite Hmc.
  set (m := fst (conditions_loop (compute_status env) fields)) in *.
  destruct (gate w1 m _) eqn:G.
  - rewrite record_match_recorded
      by (subst w1; cbn [conditionsMatch set_status];
          destruct Hm as [->|[b ->]]; reflexivity).
    do 3 eexists. split; [reflexivity|]. split; [reflexivity|]. exact Hsat.
  - exists w1, [], m. split; [reflexivity|]. split; [|exact Hsat].
    rewrite gate_unfold in G. apply orb_false_elim in G. destruct G as [G _].
    apply orb_false_elim in G. destruct G as [G _].
    apply transition_test_off; assumption.
Qed.

Lemma recorded_match_meaning_witness :
  element watcher_edges = Some 0%nat
  /\ exists w' calls m,
       checkPosition env_above VUndefined watcher_edges = Ok (w', calls)
       /\ conditionsMatch w' = VBool m
       /\ (m = true <->
           Forall (satisfied (status w'))
                  [("top", VStr "hidden"); ("left", VNum 1); ("bottom", VBool false)]).
Proof.
  split; [reflexivity|].
  apply (recorded_match_meaning env_above VUndefined watcher_edges 0%nat
           [("top", VStr "hidden"); ("left", VNum 1); ("bottom", VBool false)]
           eq_refl eq_refl (or_introl eq_refl)).
Defined.

(** ** Evaluating again under the same geometry *)

Lemma set_status_known s w : status w = s -> set_status s w = w.
Proof. intros <-. destruct w; reflexivity. Qed.

(** The third disjunct of the gate is off when the status is unchanged. *)
Lemma all_disjunct_off w :
  strict_eq (VStr "all") (conditions w) && snd (match_conditions w (status w)) = false.
Proof.
  destruct (strict_eq (VStr "all") (conditions w)) eqn:A; [|reflexivity].
  apply strict_eq_all in A. rewrite (match_conditions_all w (status w) A).
  cbn [snd andb]. apply status_differs_same.
Qed.

(** The computed match depends on the conditions, on the status and on
    whether the recorded match is "all", and on nothing else. *)
Lemma computed_match_depends w w' p p' :
  conditions w = conditions w' ->
  status w = status w' ->
  strict_eq (VStr "all") (conditionsMatch w) = strict_eq (VStr "all") (conditionsMatch w') ->
  fst (match_conditions w p) = fst (match_conditions w' p').
Proof.
  intros Hc Hs Ha. unfold match_conditions. rewrite Hc, Hs, Ha.
  destruct (_ || _); [reflexivity|].
  destruct (jstype_eqb _ _); [|reflexivity].
  destruct (conditions w'); reflexivity.
Qed.

Lemma quiet_evaluation env event w el :
  element w = Some el ->
  status w = compute_status env ->
  truthy (onEveryScrollEvent w) = false ->
  transition_test (conditionsMatch w) (fst (match_conditions w (status w))) = false ->
  checkPosition env event w = Ok (w, []).
Proof.
  intros Hel Hs He Ht.
  rewrite (checkPosition_bound env event w el Hel). cbv zeta.
  rewrite (set_status_known (compute_status env) w Hs).
  rewrite gate_unfold, Ht, He, all_disjunct_off. reflexivity.
Qed.

(** X4: whatever the configuration, with onEveryScrollEvent falsy a second
    evaluation under the same geometry and viewport as the one before calls
    no callback and leaves the watcher exactly as it was. *)
Theorem repeated_evaluation_is_quiet env event1 event2 w el :
  element w = Some el ->
  truthy (onEveryScrollEvent w) = false ->
  exists w1 calls1,
    checkPosition env event1 w = Ok (w1, calls1)
    /\ checkPosition env event2 w1 = Ok (w1, []).
Proof.
  intros Hel He.
  set (w0 := set_status (compute_status env) w).
  set (m := fst (match_conditions w0 (status w))).
  rewrite (checkPosition_bound env event1 w el Hel). cbv zeta. fold w0. fold m.
  destruct (gate w0 m _) eqn:G.
  - destruct (strict_eq (VStr "all") (conditionsMatch w0)) eqn:A.
    + rewrite (record_match_all m w0 A).
      do 2 eexists. split; [reflexivity|].
      apply (quiet_evaluation env event2 w0 el Hel eq_refl He).
      apply strict_eq_all in A. rewrite A. reflexivity.
    + rewrite (record_match_recorded m w0 A).
      do 2 eexists. split; [reflexivity|].
      apply (quiet_evaluation env event2 (set_conditionsMatch (VBool m) w0) el
               Hel eq_refl He).
      cbn [conditionsMatch set_conditionsMatch].
      replace (fst (match_conditions (set_conditionsMatch (VBool m) w0)
                      (status (set_conditionsMatch (VBool m) w0)))) with m.
      * apply transition_test_same.
      * subst m. apply computed_match_depends; [reflexivity | reflexivity|].
        cbn [conditionsMatch set_conditionsMatch]. rewrite A. reflexivity.
  - do 2 eexists. split; [reflexivity|].
    apply (quiet_evaluation env event2 w0 el Hel eq_refl He).
    replace (fst (match_conditions w0 (status w0))) with m
      by (subst m; apply computed_match_depends; reflexivity).
    rewrite gate_unfold in G. apply orb_false_elim in G. destruct G as [G _].
    apply orb_false_elim in G. destruct G as [G _]. exact G.
Qed.

Lemma repeated_evaluation_is_quiet_witness :
  element watcher_edges = Some 0%nat
  /\ truthy (onEveryScrollEvent watcher_edges) = false
  /\ exists w1 calls1,
       checkPosition env_above VUndefined watcher_edges = Ok (w1, calls1)
       /\ checkPosition env_above (VStr "scroll") w1 = Ok (w1, []).
Proof.
  split; [reflexivity|]. split; [reflexivity|].
  apply (repeated_evaluation_is_quiet env_above VUndefined (VStr "scroll")
           watcher_edges 0%nat); reflexivity.
Defined.

(** ** The "all" mode *)

Lemma of_flag_eq (x y : option bool) :
  strict_eq (Status.of_flag x) (Status.of_flag y) = true <-> x = y.
Proof.
  destruct x as [[|]|], y as [[|]|]; cbn; split; intros; congruence.
Qed.

Lemma visibility_value_eq (x y : option visibility_t) :
  strict_eq (Status.get (Status.mk None None None None None x) "visibility")
            (Status.get (Status.mk None None None None None y) "visibility") = true
  <-> x = y.
Proof.
  destruct x as [[| | |]|], y as [[| | |]|]; cbn; split; intros; congruence.
Qed.

(** The loop of lines 259-264 finds a difference exactly when the two
    records differ. *)
Lemma status_differs_iff (a b : Status.t) : status_differs a b = false <-> a = b.
Proof.
  split; [|intros ->; apply status_differs_same].
  destruct a as [at_ ar ab al ac av], b as [bt br bb bl bc bv].
  unfold status_differs, Status.keys. cbn [existsb].
  change (Status.get ?s "top") with (Status.of_flag (Status.top s)).
  change (Status.get ?s "right") with (Status.of_flag (Status.right s)).
  change (Status.get ?s "bottom") with (Status.of_flag (Status.bottom s)).
  change (Status.get ?s "left") with (Status.of_flag (Status.left s)).
  change (Status.get ?s "centerIsVisible") with (Status.of_flag (Status.centerIsVisible s)).
  cbn [Status.top Status.right Status.bottom Status.left Status.centerIsVisible].
  intros H.
  repeat (apply orb_false_elim in H; destruct H as [?H H]).
  repeat match goal with
  | X : negb _ = false |- _ => apply negb_false_iff in X
  end.
  repeat match goal with
  | X : strict_eq (Status.of_flag _) (Status.of_flag _) = true |- _ =>
      apply of_flag_eq in X
  end.
  match goal with
  | X : strict_eq (Status.get _ "visibility") (Status.get _ "visibility") = true |- _ =>
      apply (visibility_value_eq av bv) in X
  end.
  subst. reflexivity.
Qed.

(** X8: in "all" mode (conditions and recorded match both "all") with
    onEveryScrollEvent falsy and callbackTrue a function, an evaluation calls
    callbackTrue, once, exactly when the status it computes differs from the
    status stored before; otherwise it calls nothing.  callbackFalse is
    never called and the recorded match stays "all". *)
Theorem all_mode_notifies_on_change env event w el :
  element w = Some el ->
  conditions w = VStr "all" ->
  conditionsMatch w = VStr "all" ->
  truthy (onEveryScrollEvent w) = false ->
  is_function (callbackTrue w) = true ->
  exists w' calls,
    checkPosition env event w = Ok (w', calls)
    /\ conditionsMatch w' = VStr "all"
    /\ (compute_status env = status w -> calls = [])
    /\ (compute_status env <> status w ->
        calls = [ {| via := CallbackTrue; callee := callbackTrue w; thisArg := el;
                     argEvent := event; argStatus := compute_status env |} ]).
Proof.
  intros Hel Hc Hm He Ht.
  rewrite (checkPosition_bound env event w el Hel). cbv zeta.
  rewrite match_conditions_all by exact Hc. cbn [fst snd status set_status].
  rewrite gate_unfold. cbn [conditionsMatch conditions onEveryScrollEvent set_status].
  rewrite Hm, Hc, He.
  replace (transition_test (VStr "all") true) with false by reflexivity.
  replace (strict_eq (VStr "all") (VStr "all")) with true by reflexivity.
  cbn [orb andb].
  destruct (status_differs (status w) (compute_status env)) eqn:D.
  - rewrite record_match_all
      by (cbn [conditionsMatch set_status]; rewrite Hm; reflexivity).
    do 2 eexists. split; [reflexivity|]. split; [exact Hm|]. split.
    + intros E. rewrite E, status_differs_same in D. discriminate.
    + intros _. unfold dispatch.
      cbn [conditionsMatch callbackTrue set_status status]. rewrite Hm, Ht. reflexivity.
  - do 2 eexists. split; [reflexivity|]. split; [exact Hm|]. split; [reflexivity|].
    intros N. apply status_differs_iff in D. congruence.
Qed.

Lemma all_mode_notifies_on_change_witness :
  element watcher_all = Some 0%nat
  /\ compute_status env_full <> status watcher_all
  /\ exists w' calls,
       checkPosition env_full VUndefined watcher_all = Ok (w', calls)
       /\ calls = [ {| via := CallbackTrue; callee := VFun 1; thisArg := 0%nat;
                       argEvent := VUndefined; argStatus := compute_status env_full |} ].
Proof.
  split; [reflexivity|]. split; [discriminate|].
  destruct (all_mode_notifies_on_change env_full VUndefined watcher_all 0%nat
              eq_refl eq_refl eq_refl eq_refl eq_refl)
    as (w' & calls & H & _ & _ & Hd).
  exists w', calls. split; [exact H|]. apply Hd. discriminate.
Defined.

Lemma status_differs_initial env :
  status_differs Status.initial (compute_status env) = true.
Proof. reflexivity. Qed.

(** X7: a watcher constructed on an element with conditions "all" and a
    function as callbackTrue calls that function exactly once during
    construction, with no event, whatever the geometry, callbackFalse and
    onEveryScrollEvent: the status always differs from the unset one. *)
Theorem constructor_all_notifies env x0 el f cbF e :
  evaluation (constructor env x0 (Some el) (VStr "all") (VFun f) cbF e)
  = Some [ {| via := CallbackTrue; callee := VFun f; thisArg := el;
              argEvent := VUndefined; argStatus := compute_status env |} ].
Proof.
  unfold constructor. cbv zeta. cbn [evaluation]. unfold attach_and_check.
  cbn [self with_self element new_fields conditions callbackTrue callbackFalse].
  replace (truthy (VStr "all")) with true by reflexivity.
  cbn [truthy andb orb].
  set (x1 := setupEvents env _).
  assert (Hs : self x1 = set_scrollHandler (closures x0)
                           (new_fields (Some el) (VStr "all") (VFun f) cbF e))
    by (subst x1; rewrite setupEvents_self; reflexivity).
  rewrite Hs.
  rewrite (checkPosition_bound env VUndefined
             (set_scrollHandler (closures x0)
                (new_fields (Some el) (VStr "all") (VFun f) cbF e)) el eq_refl).
  cbv zeta.
  rewrite match_conditions_all by reflexivity.
  cbn [fst snd status set_status set_scrollHandler new_fields].
  rewrite status_differs_initial.
  rewrite gate_unfold.
  cbn [conditions set_status set_scrollHandler new_fields].
  replace (strict_eq (VStr "all") (VStr "all")) with true by reflexivity.
  cbn [andb]. rewrite orb_true_r.
  rewrite record_match_all by reflexivity.
  reflexivity.
Qed.

(** ** Reconfiguring with [on] *)

Lemma is_function_truthy v : is_function v = true -> truthy v = true.
Proof. destruct v; cbn; intros; congruence. Qed.

(** X9: [on] with a conditions object and two functions, on a watcher that
    has an element, always calls exactly one of them at once, whatever was
    recorded before: callbackTrue when every property of the object is
    satisfied by the status just computed, callbackFalse otherwise; and it
    records that outcome. *)
Theorem on_object_notifies env fields t f e x el :
  element (self x) = Some el ->
  is_function t = true ->
  is_function f = true ->
  exists c m,
    evaluation (on env (VObj fields) t f e x) = Some [c]
    /\ conditionsMatch (self (world (on env (VObj fields) t f e x))) = VBool m
    /\ via c = (if m then CallbackTrue else CallbackFalse)
    /\ callee c = (if m then t else f)
    /\ (m = true <-> Forall (satisfied (compute_status env)) fields).
Proof.
  intros Hel Ht Hf.
  destruct (conditions_loop_satisfied (compute_status env) fields) as [Hsat _].
  set (m := fst (conditions_loop (compute_status env) fields)) in *.
  unfold on, attach_and_check.
  cbn [self with_self element conditions callbackTrue callbackFalse].
  rewrite Hel. rewrite (is_function_truthy t Ht). cbn [truthy andb orb].
  set (x1 := setupEvents env _).
  set (w0 := {| element := Some el; status := status (self x);
                conditionsMatch := conditionsMatch_for (VObj fields);
                conditions := VObj fields; callbackTrue := t; callbackFalse := f;
                onEveryScrollEvent := e; scrollHandler := scrollHandler (self x) |}).
  assert (Hs : self x1 = set_scrollHandler (closures x) w0)
    by (subst x1; rewrite setupEvents_self; reflexivity).
  rewrite Hs.
  rewrite (checkPosition_bound env VUndefined (set_scrollHandler (closures x) w0) el eq_refl).
  cbv zeta.
  rewrite (match_conditions_object
             (set_status (compute_status env) (set_scrollHandler (closures x) w0))
             _ fields eq_refl (or_introl eq_refl)).
  cbn [status set_status]. fold m.
  rewrite gate_unfold. cbn [conditionsMatch set_status set_scrollHandler w0].
  replace (transition_test (conditionsMatch_for (VObj fields)) m) with true by reflexivity.
  cbn [orb]. rewrite record_match_recorded by reflexivity.
  unfold dispatch.
  cbn [conditionsMatch callbackTrue callbackFalse set_conditionsMatch set_status
       set_scrollHandler w0 truthy].
  rewrite Ht, Hf.
  destruct m; cbn [andb negb]; do 2 eexists;
    (split; [reflexivity|]); cbn [world self with_self conditionsMatch set_conditionsMatch];
    (split; [reflexivity|]); (split; [reflexivity|]); (split; [reflexivity|]); exact Hsat.
Qed.

Lemma on_object_notifies_witness :
  element (self (blank_world watcher_all)) = Some 0%nat
  /\ exists c (m : bool),
       evaluation (on env_above (VObj [("top", VStr "hidden")]) (VFun 1) (VFun 2)
                     VUndefined (blank_world watcher_all)) = Some [c]
       /\ via c = (if m then CallbackTrue else CallbackFalse)
       /\ (m = true <-> Forall (satisfied (compute_status env_above))
                               [("top", VStr "hidden")]).
Proof.
  split; [reflexivity|].
  destruct (on_object_notifies env_above [("top", VStr "hidden")] (VFun 1) (VFun 2)
              VUndefined (blank_world watcher_all) 0%nat eq_refl eq_refl eq_refl)
    as (c & m & H & _ & Hv & _ & Hm).
  exists c, m. split; [exact H|]. split; [exact Hv | exact Hm].
Defined.

(** ** A string other than "all" as conditions *)

Lemma other_string_check env event w w' calls :
  other_string_state w ->
  checkPosition env event w = Ok (w', calls) ->
  calls = [] /\ other_string_state w'.
Proof.
  intros (Hm & Hc & He) H.
  destruct (checkPosition_all _ _ _ _ _ Hm H) as [Hm' _].
  destruct (checkPosition_frame _ _ _ _ _ H) as (_ & _ & Hc' & _ & _ & He' & _).
  split; [|unfold other_string_state; rewrite Hm', Hc', He'; auto].
  destruct (checkPosition_Ok_bound _ _ _ _ _ H) as [el Hel].
  rewrite (checkPosition_bound env event w el Hel) in H. cbv zeta in H.
  rewrite gate_unfold in H.
  cbn [conditionsMatch conditions onEveryScrollEvent set_status] in H.
  rewrite Hm, Hc, He in H.
  replace (transition_test (VStr "all")
             (fst (match_conditions (set_status (compute_status env) w) (status w))))
    with false in H by reflexivity.
  cbn [orb andb] in H. inversion H. reflexivity.
Qed.

Lemma other_string_attach env x :
  other_string_state (self x) ->
  invoked (evaluation (attach_and_check env x)) = []
  /\ other_string_state (self (world (attach_and_check env x))).
Proof.
  intros Hst. unfold attach_and_check.
  destruct (element (self x)) as [el|] eqn:Hel; [|split; [reflexivity | exact Hst]].
  destruct (_ && _); [|split; [reflexivity | exact Hst]].
  assert (Hst1 : other_string_state (self (setupEvents env x)))
    by (rewrite setupEvents_self; exact Hst).
  assert (Hel1 : element (self (setupEvents env x)) = Some el)
    by (rewrite setupEvents_self; exact Hel).
  destruct (checkPosition_total env VUndefined _ el Hel1) as (w1 & calls & H).
  rewrite H. cbn [evaluation world self with_self invoked].
  destruct (other_string_check _ _ _ _ _ Hst1 H) as [-> Hst']. split; [reflexivity | exact Hst'].
Qed.

Lemma other_string_run envs : forall x,
  other_string_state (self x) ->
  Forall (fun entry => invoked entry = []) (snd (run (checks envs) x)).
Proof.
  induction envs as [|[env event] rest IH]; intros x Hst; [constructor|].
  unfold checks. cbn [map fst snd]. rewrite run_cons. cbn [snd].
  fold (checks rest). cbn [step].
  destruct (checkPosition env event (self x)) as [[w calls]|err] eqn:H; cbn [fst snd].
  - destruct (other_string_check _ _ _ _ _ Hst H) as [-> Hst'].
    constructor; [reflexivity | apply IH; exact Hst'].
  - constructor; [reflexivity | apply IH; exact Hst].
Qed.

(** X6: when [on] is given a string other than "all" as conditions (and a
    falsy onEveryScrollEvent), no callback is ever called: neither by the
    evaluation [on] runs nor by any later evaluation. *)
Theorem other_string_never_notifies env s t f e x envs :
  s <> "all" ->
  truthy e = false ->
  invoked (evaluation (on env (VStr s) t f e x)) = []
  /\ Forall (fun entry => invoked entry = [])
            (snd (run (checks envs) (world (on env (VStr s) t f e x)))).
Proof.
  intros Hs He.
  assert (Hst : other_string_state
                  {| element := element (self x); status := status (self x);
                     conditionsMatch := conditionsMatch_for (VStr s);
                     conditions := VStr s; callbackTrue := t; callbackFalse := f;
                     onEveryScrollEvent := e; scrollHandler := scrollHandler (self x) |}).
  { unfold other_string_state. cbn [conditionsMatch conditions onEveryScrollEvent].
    split; [reflexivity|]. split; [|exact He].
    destruct (strict_eq (VStr "all") (VStr s)) eqn:E; [|reflexivity].
    apply strict_eq_all in E. inversion E. congruence. }
  unfold on.
  match goal with |- context [attach_and_check env ?y] =>
    destruct (other_string_attach env y Hst) as [H1 H2] end.
  split; [exact H1 | apply other_string_run; exact H2].
Qed.

Lemma other_string_never_notifies_witness :
  "visible" <> "all"
  /\ truthy VUndefined = false
  /\ invoked (evaluation (on env_full (VStr "visible") (VFun 1) (VFun 2) VUndefined
                            (blank_world watcher_all))) = []
  /\ Forall (fun entry => invoked entry = [])
            (snd (run (checks [(env_above, VUndefined); (env_full, VUndefined)])
                      (world (on env_full (VStr "visible") (VFun 1) (VFun 2) VUndefined
                                 (blank_world watcher_all))))).
Proof.
  split; [discriminate|]. split; [reflexivity|].
  apply (other_string_never_notifies env_full "visible" (VFun 1) (VFun 2) VUndefined
           (blank_world watcher_all) [(env_above, VUndefined); (env_full, VUndefined)]);
    [discriminate | reflexivity].
Defined.

(** ** The recorded match over a watcher's life *)

Lemma checkPosition_recorded env event w w' calls :
  checkPosition env event w = Ok (w', calls) ->
  conditionsMatch w' = conditionsMatch w
  \/ (strict_eq (VStr "all") (conditionsMatch w) = false
      /\ exists b, conditionsMatch w' = VBool b).
Proof.
  intros H. destruct (checkPosition_Ok_bound _ _ _ _ _ H) as [el Hel].
  rewrite (checkPosition_bound env event w el Hel) in H. cbv zeta in H.
  destruct (gate _ _ _); inversion H; subst; clear H; [|left; reflexivity].
  unfold record_match. cbn [conditionsMatch set_status].
  destruct (strict_eq (VStr "all") (conditionsMatch w)); cbn [negb];
    [left; reflexivity | right; split; [reflexivity | eexists; reflexivity]].
Qed.

Lemma checkPosition_consistent env event w w' calls :
  match_consistent w ->
  checkPosition env event w = Ok (w', calls) ->
  match_consistent w'.
Proof.
  intros Hc H.
  destruct (checkPosition_frame _ _ _ _ _ H) as (_ & _ & Hcond & _).
  unfold match_consistent in *. rewrite Hcond.
  destruct (checkPosition_recorded _ _ _ _ _ H) as [E|[_ [b E]]]; rewrite E.
  - exact Hc.
  - destruct Hc as [[Ht Hall]|[Ht _]].
    + destruct (checkPosition_all _ _ _ _ _ Hall H) as [Hall' _]. congruence.
    + right. split; [exact Ht | right; eexists; reflexivity].
Qed.

Lemma conditionsMatch_for_consistent el st c t f e h :
  match_consistent
    {| element := el; status := st; conditionsMatch := conditionsMatch_for c;
       conditions := c; callbackTrue := t; callbackFalse := f;
       onEveryScrollEvent := e; scrollHandler := h |}.
Proof.
  unfold match_consistent, conditionsMatch_for. cbn [conditions conditionsMatch].
  destruct c; cbn; try (right; split; [discriminate | left; reflexivity]).
  left. split; reflexivity.
Qed.

Lemma attach_and_check_consistent env x :
  match_consistent (self x) ->
  match_consistent (self (world (attach_and_check env x))).
Proof.
  intros Hc. unfold attach_and_check.
  destruct (element (self x)) as [el|] eqn:Hel; [|exact Hc].
  destruct (_ && _); [|exact Hc].
  assert (Hel1 : element (self (setupEvents env x)) = Some el)
    by (rewrite setupEvents_self; exact Hel).
  assert (Hc1 : match_consistent (self (setupEvents env x)))
    by (rewrite setupEvents_self; exact Hc).
  destruct (checkPosition_total env VUndefined _ el Hel1) as (w1 & calls & H).
  rewrite H. cbn [world self with_self].
  exact (checkPosition_consistent _ _ _ _ _ Hc1 H).
Qed.

Lemma step_consistent o x :
  match_consistent (self x) -> match_consistent (self (fst (step o x))).
Proof.
  intros Hc. destruct o as [env event|env c t f e|env t|env|env]; cbn [step].
  - destruct (checkPosition env event (self x)) as [[w calls]|err] eqn:H;
      cbn [fst self with_self]; [|exact Hc].
    exact (checkPosition_consistent _ _ _ _ _ Hc H).
  - cbv zeta. cbn [fst]. unfold on. apply attach_and_check_consistent.
    cbn [self with_self]. apply conditionsMatch_for_consistent.
  - cbv zeta. cbn [fst]. unfold always. apply attach_and_check_consistent.
    cbn [self with_self]. left. split; reflexivity.
  - cbn [fst]. rewrite setupEvents_self. exact Hc.
  - unfold cancel. destruct (eventsApi env); [|exact Hc|exact Hc].
    destruct (scrollHandler (self x)); exact Hc.
Qed.

(** X11: throughout a watcher's life (construction, then any operations) the
    recorded match is the string "all" exactly when the conditions are a
    string, and is otherwise unset or a boolean: [checkPosition] only ever
    stores booleans, and never over an "all". *)
Theorem recorded_match_invariant env x0 el c t f e ops :
  match_consistent (self (fst (run ops (world (constructor env x0 el c t f e))))).
Proof.
  assert (H0 : match_consistent (self (world (constructor env x0 el c t f e)))).
  { unfold constructor. cbv zeta. cbn [world]. apply attach_and_check_consistent.
    cbn [self with_self]. apply conditionsMatch_for_consistent. }
  revert H0. generalize (world (constructor env x0 el c t f e)).
  induction ops as [|o rest IH]; intros x Hx; [exact Hx|].
  rewrite run_cons. cbn [fst]. apply IH. apply step_consistent. exact Hx.
Qed.

(** ** When the configuration methods attach and evaluate *)

Lemma setupEvents_world env x :
  listeners (setupEvents env x) = (listeners x ++ attached env (closures x))%list
  /\ closures (setupEvents env x) = S (closures x).
Proof.
  unfold setupEvents, attached. destruct (eventsApi env); cbn; rewrite ?app_nil_r; auto.
Qed.

Lemma attach_and_check_world env x :
  if match element (self x) with
     | Some _ => truthy (conditions (self x))
                 && (truthy (callbackTrue (self x)) || truthy (callbackFalse (self x)))
     | None => false
     end
  then (exists calls, evaluation (attach_and_check env x) = Some calls)
       /\ listeners (world (attach_and_check env x)) = (listeners x ++ attached env (closures x))%list
       /\ closures (world (attach_and_check env x)) = S (closures x)
       /\ scrollHandler (self (world (attach_and_check env x))) = Some (closures x)
  else evaluation (attach_and_check env x) = None
       /\ world (attach_and_check env x) = x.
Proof.
  unfold attach_and_check.
  destruct (element (self x)) as [el|] eqn:Hel; [|split; reflexivity].
  destruct (_ && _); [|split; reflexivity].
  assert (Hel1 : element (self (setupEvents env x)) = Some el)
    by (rewrite setupEvents_self; exact Hel).
  destruct (checkPosition_total env VUndefined _ el Hel1) as (w1 & calls & H).
  rewrite H. cbn [evaluation world self with_self listeners closures].
  destruct (setupEvents_world env x) as [-> ->].
  destruct (checkPosition_frame _ _ _ _ _ H) as (_ & _ & _ & _ & _ & _ & ->).
  rewrite setupEvents_self. repeat split. eexists; reflexivity.
Qed.

Lemma on_world env c t f e x :
  if match element (self x) with
     | Some _ => truthy c && (truthy t || truthy f)
     | None => false
     end
  then (exists calls, evaluation (on env c t f e x) = Some calls)
       /\ listeners (world (on env c t f e x))
          = (listeners x ++ attached env (closures x))%list
       /\ closures (world (on env c t f e x)) = S (closures x)
       /\ scrollHandler (self (world (on env c t f e x))) = Some (closures x)
  else evaluation (on env c t f e x) = None
       /\ world (on env c t f e x)
          = with_self {| element := element (self x); status := status (self x);
                         conditionsMatch := conditionsMatch_for c;
                         conditions := c; callbackTrue := t; callbackFalse := f;
                         onEveryScrollEvent := e;
                         scrollHandler := scrollHandler (self x) |} x.
Proof.
  unfold on.
  match goal with |- context [attach_and_check env ?y] =>
    pose proof (attach_and_check_world env y) as W end.
  cbn [self with_self element conditions callbackTrue callbackFalse closures listeners] in W.
  exact W.
Qed.

(** X12: [on] attaches a new handler and evaluates exactly when the watcher
    has an element, the conditions are truthy and at least one of the two
    callbacks is truthy; it then registers one new handler, even if one is
    registered already: for scroll and resize on a window with
    addEventListener, for onscroll and onresize on one with attachEvent
    only, for nothing on a window with neither.  Otherwise it stores its
    four arguments, resets the recorded match ("all" when the conditions are
    a string, null otherwise) and changes nothing else: element, status,
    handler and the window's listeners are as before, and no evaluation
    runs. *)
Theorem on_attaches_iff env c t f e x :
  if match element (self x) with
     | Some _ => truthy c && (truthy t || truthy f)
     | None => false
     end
  then (exists calls, evaluation (on env c t f e x) = Some calls)
       /\ listeners (world (on env c t f e x))
          = (listeners x ++ attached env (closures x))%list
       /\ scrollHandler (self (world (on env c t f e x))) = Some (closures x)
       /\ conditions (self (world (on env c t f e x))) = c
       /\ callbackTrue (self (world (on env c t f e x))) = t
       /\ callbackFalse (self (world (on env c t f e x))) = f
       /\ onEveryScrollEvent (self (world (on env c t f e x))) = e
  else evaluation (on env c t f e x) = None
       /\ world (on env c t f e x)
          = {| self := {| element := element (self x); status := status (self x);
                          conditionsMatch := conditionsMatch_for c;
                          conditions := c; callbackTrue := t; callbackFalse := f;
                          onEveryScrollEvent := e;
                          scrollHandler := scrollHandler (self x) |};
               listeners := listeners x;
               closures := closures x |}.
Proof.
  pose proof (on_world env c t f e x) as W.
  destruct (match element (self x) with Some _ => _ | None => false end).
  - destruct W as (Hev & Hl & _ & Hh).
    split; [exact Hev|]. split; [exact Hl|]. split; [exact Hh|].
    unfold on.
    match goal with |- context [attach_and_check env ?y] =>
      destruct (attach_and_check_frame env y) as (_ & -> & -> & -> & ->) end.
    repeat split.
  - exact W.
Qed.

(** X13: [on] and [always] return the watcher, so that calls can be
    chained, exactly when it has an element; with no element they return
    undefined. *)
Theorem chaining_needs_element env x :
  (forall c t f e,
     returned (on env c t f e x)
     = match element (self x) with Some _ => RetThis | None => RetUndefined end)
  /\ (forall t,
        returned (always env t x)
        = match element (self x) with Some _ => RetThis | None => RetUndefined end).
Proof.
  assert (G : forall y,
    returned (attach_and_check env y)
    = match element (self y) with Some _ => RetThis | None => RetUndefined end).
  { intros y. unfold attach_and_check.
    destruct (element (self y)) as [el|] eqn:Hel; [|reflexivity].
    destruct (_ && _); [|reflexivity].
    assert (Hel1 : element (self (setupEvents env y)) = Some el)
      by (rewrite setupEvents_self; exact Hel).
    destruct (checkPosition_total env VUndefined _ el Hel1) as (w1 & calls & H).
    rewrite H. reflexivity. }
  split; intros; [unfold on | unfold always]; rewrite G; reflexivity.
Qed.

(** ** Listeners on the window *)

Lemma remove_listener_fresh k h ls :
  Forall (fun l => (snd l < h)%nat) ls -> remove_listener (k, h) ls = ls.
Proof.
  intros HF. unfold remove_listener.
  induction ls as [|[k' h'] rest IH]; [reflexivity|].
  inversion HF as [|? ? Hlt Hrest]; subst. cbn [filter].
  unfold listener_eqb at 1. cbn [fst snd].
  replace (Nat.eqb h h') with false
    by (symmetry; apply Nat.eqb_neq; cbn in Hlt; lia).
  rewrite andb_false_r. cbn [negb]. now rewrite IH.
Qed.

Lemma remove_listener_app l ls ls' :
  remove_listener l (ls ++ ls') = (remove_listener l ls ++ remove_listener l ls')%list.
Proof. unfold remove_listener. apply filter_app. Qed.

Lemma remove_own_pair h :
  remove_listener ("resize", h) (remove_listener ("scroll", h) [("scroll", h); ("resize", h)])
  = [].
Proof.
  unfold remove_listener, listener_eqb. cbn [filter fst snd].
  rewrite !Nat.eqb_refl.
  replace ("scroll" =? "scroll") with true by reflexivity.
  replace ("scroll" =? "resize") with false by reflexivity.
  cbn [andb negb filter fst snd]. rewrite Nat.eqb_refl.
  replace ("resize" =? "resize") with true by reflexivity.
  reflexivity.
Qed.

Lemma cancel_modern env x h :
  eventsApi env = AddEventListener ->
  scrollHandler (self x) = Some h ->
  cancel env x = Ok {| self := self x;
                       listeners := remove_listener ("resize", h)
                                      (remove_listener ("scroll", h) (listeners x));
                       closures := closures x |}.
Proof. intros Ha Hh. unfold cancel. now rewrite Ha, Hh. Qed.

(** X14: on a window with addEventListener, [cancel] right after
    [setupEvents] restores the listeners of the window exactly as they were
    before (handlers being numbered in creation order). *)
Theorem setupEvents_cancel_roundtrip env x :
  eventsApi env = AddEventListener ->
  handlers_fresh x ->
  exists x',
    cancel env (setupEvents env x) = Ok x'
    /\ listeners x' = listeners x
    /\ listeners (setupEvents env x)
       = (listeners x ++ [("scroll", closures x); ("resize", closures x)])%list.
Proof.
  intros Ha Hfresh.
  assert (Hl : listeners (setupEvents env x)
               = (listeners x ++ [("scroll", closures x); ("resize", closures x)])%list)
    by (unfold setupEvents; rewrite Ha; reflexivity).
  rewrite (cancel_modern env (setupEvents env x) (closures x) Ha)
    by (rewrite setupEvents_self; reflexivity).
  eexists. split; [reflexivity|]. split; [|exact Hl].
  cbn [listeners]. rewrite Hl, !remove_listener_app, remove_own_pair, app_nil_r.
  rewrite (remove_listener_fresh "scroll" (closures x) (listeners x) Hfresh).
  apply remove_listener_fresh. exact Hfresh.
Qed.

Lemma setupEvents_cancel_roundtrip_witness :
  eventsApi env_full = AddEventListener
  /\ handlers_fresh (setupEvents env_full (blank_world watcher_all))
  /\ exists x',
       cancel env_full (setupEvents env_full (setupEvents env_full (blank_world watcher_all)))
       = Ok x'
       /\ listeners x' = [("scroll", 0%nat); ("resize", 0%nat)].
Proof.
  assert (Hf : handlers_fresh (setupEvents env_full (blank_world watcher_all)))
    by (unfold handlers_fresh; cbn; repeat constructor).
  split; [reflexivity|]. split; [exact Hf|].
  destruct (setupEvents_cancel_roundtrip env_full
              (setupEvents env_full (blank_world watcher_all)) eq_refl Hf)
    as (x' & Hc & Hl & _).
  exists x'. split; [exact Hc | exact Hl].
Defined.

Lemma handlers_fresh_app x ls c :
  handlers_fresh x ->
  Forall (fun l => (snd l < c)%nat) ls ->
  (closures x <= c)%nat ->
  Forall (fun l => (snd l < c)%nat) (listeners x ++ ls).
Proof.
  intros Hf Hls Hle. apply Forall_app. split; [|exact Hls].
  unfold handlers_fresh in Hf. rewrite Forall_forall in *. intros l Hin.
  specialize (Hf l Hin). lia.
Qed.

(** X15: reconfiguring does not replace the handler: after two calls of [on]
    that attach (element bound, truthy conditions, a truthy callbackTrue)
    and one [cancel], the listeners of the first call are still registered
    on the window; [cancel] removes those of the last call only. *)
Theorem cancel_removes_last_handler_only env x el c t f e c' t' f' e' :
  eventsApi env = AddEventListener ->
  handlers_fresh x ->
  element (self x) = Some el ->
  truthy c = true -> truthy t = true ->
  truthy c' = true -> truthy t' = true ->
  listeners (fst (run [On env c t f e; On env c' t' f' e'; Cancel env] x))
  = (listeners x ++ [("scroll", closures x); ("resize", closures x)])%list.
Proof.
  intros Ha Hfresh Hel Hc Ht Hc' Ht'.
  rewrite run_cons. cbn [step fst].
  pose proof (on_world env c t f e x) as H1.
  rewrite Hel, Hc, Ht in H1. cbn [andb orb] in H1. destruct H1 as (_ & Hl1 & Hcl1 & Hh1).
  set (x1 := world (on env c t f e x)) in *.
  assert (Hel1 : element (self x1) = Some el).
  { subst x1. unfold on.
    match goal with |- context [attach_and_check env ?y] =>
      destruct (attach_and_check_frame env y) as (-> & _) end.
    exact Hel. }
  rewrite run_cons. cbn [step fst].
  pose proof (on_world env c' t' f' e' x1) as H2.
  rewrite Hel1, Hc', Ht' in H2. cbn [andb orb] in H2. destruct H2 as (_ & Hl2 & _ & Hh2).
  set (x2 := world (on env c' t' f' e' x1)) in *.
  cbn [run step fst].
  rewrite (cancel_modern env x2 (closures x1) Ha Hh2). cbn [fst listeners].
  unfold attached in Hl1, Hl2. rewrite Ha in Hl1, Hl2.
  rewrite Hl2, !remove_listener_app, remove_own_pair, app_nil_r.
  assert (Hf1 : Forall (fun l => (snd l < closures x1)%nat) (listeners x1)).
  { rewrite Hl1, Hcl1. apply Forall_app. split.
    - unfold handlers_fresh in Hfresh. rewrite Forall_forall in *.
      intros l Hin. specialize (Hfresh l Hin). lia.
    - repeat constructor; cbn; lia. }
  rewrite (remove_listener_fresh "scroll" (closures x1) (listeners x1) Hf1).
  rewrite (remove_listener_fresh "resize" (closures x1) (listeners x1) Hf1).
  exact Hl1.
Qed.

Lemma cancel_removes_last_handler_only_witness :
  handlers_fresh (blank_world watcher_all)
  /\ listeners (fst (run [On env_full center_condition (VFun 1) (VFun 2) VUndefined;
                          On env_full (VStr "all") (VFun 3) VUndefined VUndefined;
                          Cancel env_full]
                         (blank_world watcher_all)))
     = [("scroll", 0%nat); ("resize", 0%nat)].
Proof.
  assert (Hf : handlers_fresh (blank_world watcher_all)) by constructor.
  split; [exact Hf|].
  apply (cancel_removes_last_handler_only env_full (blank_world watcher_all) 0%nat
           center_condition (VFun 1) (VFun 2) VUndefined
           (VStr "all") (VFun 3) VUndefined VUndefined eq_refl Hf);
    reflexivity.
Defined.

(** X16: on a window that offers attachEvent but not addEventListener,
    [setupEvents] registers its handler for onscroll and onresize, and
    [cancel] can never remove it: it throws a TypeError (it calls
    [window.dettachEvent]), so after any number of [cancel] calls the
    listeners are all still there. *)
Theorem legacy_cancel_never_detaches env x n :
  eventsApi env = AttachEvent ->
  cancel env (setupEvents env x) = Throw TypeError
  /\ listeners (fst (run (repeat (Cancel env) n) (setupEvents env x)))
     = (listeners x ++ [("onscroll", closures x); ("onresize", closures x)])%list.
Proof.
  intros Ha. split; [unfold cancel; now rewrite Ha|].
  assert (Hl : listeners (setupEvents env x)
               = (listeners x ++ [("onscroll", closures x); ("onresize", closures x)])%list)
    by (unfold setupEvents; rewrite Ha; reflexivity).
  rewrite <- Hl. generalize (setupEvents env x). clear Hl.
  induction n as [|n IH]; intros y; [reflexivity|].
  cbn [repeat]. rewrite run_cons. cbn [fst step]. unfold cancel at 1. rewrite Ha.
  cbn [fst]. apply IH.
Qed.

Lemma legacy_cancel_never_detaches_witness :
  eventsApi env_legacy = AttachEvent
  /\ cancel env_legacy (setupEvents env_legacy (blank_world watcher_all)) = Throw TypeError
  /\ listeners (fst (run (repeat (Cancel env_legacy) 3)
                         (setupEvents env_legacy (blank_world watcher_all))))
     = [("onscroll", 0%nat); ("onresize", 0%nat)].
Proof.
  split; [reflexivity|].
  exact (legacy_cancel_never_detaches env_legacy (blank_world watcher_all) 3 eq_refl).
Defined.

(** Handlers stay numbered in creation order under every operation, so the
    hypothesis of the two listener properties holds in every world reached
    from a window without listeners. *)
Lemma handlers_fresh_step o x :
  handlers_fresh x -> handlers_fresh (fst (step o x)).
Proof.
  intros Hf.
  assert (Hsetup : forall y, handlers_fresh y -> handlers_fresh (setupEvents (env_of_op o) y)).
  { intros y Hy. unfold handlers_fresh.
    destruct (setupEvents_world (env_of_op o) y) as [-> ->].
    apply handlers_fresh_app; [exact Hy | | lia].
    unfold attached. destruct (eventsApi (env_of_op o)); repeat constructor; cbn; lia. }
  assert (Hattach : forall y, handlers_fresh y ->
                              handlers_fresh (world (attach_and_check (env_of_op o) y))).
  { intros y Hy. unfold attach_and_check.
    destruct (element (self y)); [|exact Hy].
    destruct (_ && _); [|exact Hy].
    destruct (checkPosition _ _ _) as [[w calls]|err]; cbn [world]; [|apply Hsetup, Hy].
    exact (Hsetup y Hy). }
  destruct o as [env event|env c t f e|env t|env|env]; cbn [step env_of_op] in *.
  - destruct (checkPosition env event (self x)) as [[w calls]|err]; exact Hf.
  - cbv zeta. cbn [fst]. unfold on. apply Hattach. exact Hf.
  - cbv zeta. cbn [fst]. unfold always. apply Hattach. exact Hf.
  - cbn [fst]. apply Hsetup, Hf.
  - unfold cancel. destruct (eventsApi env); [|exact Hf|exact Hf].
    destruct (scrollHandler (self x)); [|exact Hf]. cbn [fst].
    unfold handlers_fresh, remove_listener in *. cbn [listeners closures].
    rewrite Forall_forall in *. intros l Hin.
    apply filter_In in Hin. destruct Hin as [Hin _].
    apply filter_In in Hin. destruct Hin as [Hin _]. apply Hf, Hin.
Qed.

(** ** Conditions that are neither a string nor an object *)

(** X17: when the conditions are neither a string nor an object (a boolean,
    a number, a function, undefined, or null) and the recorded match is
    unset or boolean, every evaluation records a match: the recorded match
    becomes true and no call goes to callbackFalse. *)
Theorem other_conditions_always_match env event w el :
  element w = Some el ->
  (forall s, conditions w <> VStr s) ->
  (forall fields, conditions w <> VObj fields) ->
  (conditionsMatch w = VNull \/ exists b, conditionsMatch w = VBool b) ->
  exists w' calls,
    checkPosition env event w = Ok (w', calls)
    /\ conditionsMatch w' = VBool true
    /\ forall c, In c calls -> via c = CallbackTrue.
Proof.
  intros Hel Hns Hno Hm.
  assert (Hmc : match_conditions (set_status (compute_status env) w) (status w)
                = (true, false)).
  { unfold match_conditions. cbn [conditionsMatch conditions set_status].
    replace (strict_eq (VStr "all") (conditionsMatch w)) with false
      by (destruct Hm as [->|[b ->]]; reflexivity).
    destruct (conditions w) eqn:E; try reflexivity.
    - exfalso. apply (Hns s). reflexivity.
    - exfalso. apply (Hno fields). reflexivity. }
  assert (Hna : strict_eq (VStr "all")
                  (conditionsMatch (set_status (compute_status env) w)) = false)
    by (cbn [conditionsMatch set_status]; destruct Hm as [->|[b ->]]; reflexivity).
  rewrite (checkPosition_bound env event w el Hel). cbv zeta. rewrite Hmc.
  cbn [fst snd]. destruct (gate _ true false) eqn:G.
  - rewrite record_match_recorded by exact Hna.
    do 2 eexists. split; [reflexivity|]. split; [reflexivity|].
    intros c. apply dispatch_truthy. reflexivity.
  - do 2 eexists. split; [reflexivity|]. split; [|intros c []].
    rewrite gate_unfold in G. apply orb_false_elim in G. destruct G as [G _].
    apply orb_false_elim in G. destruct G as [G _].
    cbn [conditionsMatch set_status] in G |- *.
    apply transition_test_off; assumption.
Qed.

Lemma other_conditions_always_match_witness :
  element (watcher_with (VBool true)) = Some 0%nat
  /\ exists w' calls,
       checkPosition env_above VUndefined (watcher_with (VBool true)) = Ok (w', calls)
       /\ conditionsMatch w' = VBool true
       /\ forall c, In c calls -> via c = CallbackTrue.
Proof.
  split; [reflexivity|].
  apply (other_conditions_always_match env_above VUndefined (watcher_with (VBool true)) 0%nat);
    [reflexivity | discriminate | discriminate | left; reflexivity].
Defined.
